(** * The MAST notebook repository: Kepler tutorial notebooks

    The repository consists of Jupyter notebooks.  The code of a notebook
    is the sequence of its code cells; a cell is a short sequence of Python
    statements.  Each notebook is transcribed below cell by cell, statement
    by statement, in the small fragment of Python that the cells are written
    in, and run by an executable semantics:

    - names live in one table of notebook globals shared by all cells;
    - every operation on an object of an external library (astropy,
      astroquery, lightkurve, numpy, matplotlib), and every import, magic,
      builtin call and display of a cell's value, is a call out of the
      notebook.  The answers to these calls are not known to the notebook:
      they are given by a [world], which answers the k-th call of a run with
      a value or with an exception;
    - an exception ends the run, with two exceptions of the language and
      of the kernel: what the rendering of a cell's value raises is caught
      by the display hook of the kernel, and what the body of a [with]
      block raises is dropped when the exit of the manager returns a true
      value;
    - the run keeps the log of the calls it made with their answers.

    The first part of the file holds the definitions: the syntax, the
    semantics, the four notebooks, and what is stated of their runs.  The
    second part holds the proofs: properties of every program of the
    fragment, by induction on its syntax, and then the properties of the
    four notebooks: C1 to C10, and further properties of their runs, X1
    and X3 to X10. *)

From Stdlib Require Import String Ascii List ZArith Lia Bool Arith PeanoNat.
From Stdlib Require Import Permutation.
Import ListNotations.
Open Scope string_scope.
Open Scope list_scope.
Set Implicit Arguments.
Set Warnings "-register-all".

(** ** Syntax of the cells *)

(** Expressions, as they occur in the cells.  Keyword arguments are written
    among the arguments of a call ([Kw]); slices have literal bounds. *)
Inductive expr : Type :=
| Name (x : string)
| Str (s : string)
| Int (z : Z)
| Float (lit : string)
| Bool (b : bool)
| Tuple (es : list expr)
| Slice (lo hi : option Z)
| Attr (e : expr) (a : string)
| Subscript (e i : expr)
| Invert (e : expr)
| Call (f : expr) (args : list expr)
| Kw (k : string) (e : expr).

(** Statements without a block. [Out e] is the last expression of a cell
    when the cell does not end in a semicolon: Jupyter hands its value to
    the display hook. [Expr e] is any other expression statement. *)
Inductive simple : Type :=
| Import (module asname : string)
| FromImport (module name : string)
| Magic (line : string)
| Assign (x : string) (e : expr)
| AssignUnpack (xs : list string) (e : expr)
| AssignItem (target index e : expr)
| Expr (e : expr)
| Out (e : expr).

(** The only block statement of the notebooks is [with e as x: body], and
    its bodies hold simple statements only. *)
Inductive stmt : Type :=
| Do (s : simple)
| With (e : expr) (x : string) (body : list simple).

Definition cell := list stmt.

Record notebook := mkNotebook { title : string; cells : list cell }.

(** ** Values, external calls, worlds *)

Inductive value : Type :=
| VNone
| VBool (b : bool)
| VInt (z : Z)
| VFloat (lit : string)
| VStr (s : string)
| VTuple (vs : list value)
| VSlice (lo hi : option Z)
| VKw (k : string) (v : value)
| VBuiltin (name : string)
| VObj (id : nat).

Definition exn := string.

(** A call out of the notebook. *)
Inductive extcall : Type :=
| XImport (module : string)
| XImportFrom (module name : string)
| XMagic (line : string)
| XGetAttr (o : value) (a : string)
| XCall (f : value) (args : list value)
| XCallMethod (o : value) (m : string) (args : list value)
| XGetItem (o i : value)
| XSetItem (o i v : value)
| XInvert (o : value)
| XUnpack (o : value) (n i : nat)
| XEnter (o : value)
| XExit (o : value) (raising : bool)
| XDisplay (v : value)
| XBool (o : value).

Inductive response : Type :=
| Ret (v : value)
| Exc (e : exn).

(** The world answers the k-th external call of a run. *)
Definition world := nat -> response.

Record state := mkState {
  globals : list (string * value);
  log : list (extcall * response)
}.

Definition st0 : state := mkState [] [].

Definition pos (st : state) : nat := length (log st).
Definition calls (st : state) : list extcall := map fst (log st).

(** How a statement ends: normally, with an exception raised by an external
    call, or with the NameError that Python itself raises for an unbound
    name. *)
Inductive outcome (A : Type) : Type :=
| Ok (a : A)
| Raised (e : exn)
| NameError (x : string).
Arguments Ok {A} a.
Arguments Raised {A} e.
Arguments NameError {A} x.

Definition M (A : Type) : Type := world -> state -> outcome A * state.

Definition ret {A} (a : A) : M A := fun _ st => (Ok a, st).

Definition bind {A B} (m : M A) (f : A -> M B) : M B :=
  fun w st =>
    match m w st with
    | (Ok a, st1) => f a w st1
    | (Raised e, st1) => (Raised e, st1)
    | (NameError x, st1) => (NameError x, st1)
    end.

Notation "x <- m ;; k" := (bind m (fun x => k))
  (at level 61, m at next level, right associativity).
Notation "m ;;; k" := (bind m (fun _ => k))
  (at level 61, right associativity).

Definition raise {A} (e : exn) : M A := fun _ st => (Raised e, st).

(** Ending as [r] did. *)
Definition finish {A} (r : outcome A) : M A := fun _ st => (r, st).

(** The external call [c]: logged with the world's answer. *)
Definition ext (c : extcall) : M value :=
  fun w st =>
    let r := w (pos st) in
    let st1 := mkState (globals st) (log st ++ [(c, r)]) in
    match r with
    | Ret v => (Ok v, st1)
    | Exc e => (Raised e, st1)
    end.

(** The value [v] of a cell is handed to the display hook of the kernel
    ([sys.displayhook]): the call [XDisplay v], made for every value, also
    for None, for which the hook shows nothing.  The hook renders the value
    with the formatters of the library; what they raise is caught by the
    hook, which prints the traceback, and the run goes on: the answer of the
    world is logged, and nothing else depends on it. *)
Definition display (v : value) : M unit :=
  fun w st =>
    (Ok tt, mkState (globals st) (log st ++ [(XDisplay v, w (pos st))])).

Fixpoint assoc (x : string) (g : list (string * value)) : option value :=
  match g with
  | [] => None
  | (y, v) :: g1 => if String.eqb x y then Some v else assoc x g1
  end.

(** The builtins that the cells name. *)
Definition builtins : list string := ["print"; "repr"; "len"].

Definition lookup (x : string) : M value :=
  fun _ st =>
    match assoc x (globals st) with
    | Some v => (Ok v, st)
    | None =>
        if existsb (String.eqb x) builtins then (Ok (VBuiltin x), st)
        else (NameError x, st)
    end.

Definition assign (x : string) (v : value) : M unit :=
  fun _ st =>
    (Ok tt,
     mkState
       ((x, v) :: filter (fun p => negb (String.eqb x (fst p))) (globals st))
       (log st)).

Definition mapM {A B} (f : A -> M B) : list A -> M (list B) :=
  fix go (l : list A) : M (list B) :=
    match l with
    | [] => ret []
    | a :: l1 => b <- f a ;; bs <- go l1 ;; ret (b :: bs)
    end.

Definition seqM {A} (f : A -> M unit) : list A -> M unit :=
  fix go (l : list A) : M unit :=
    match l with
    | [] => ret tt
    | a :: l1 => f a ;;; go l1
    end.

(** ** Semantics *)

(** [r.m(args)] evaluates the receiver, loads its attribute [m], evaluates
    the arguments from left to right, and calls the method that was loaded;
    the call is logged under the receiver and the name of the method.  Any
    other call is a call of the value of the callee. *)
Fixpoint eval (e : expr) : M value :=
  match e with
  | Name x => lookup x
  | Str s => ret (VStr s)
  | Int z => ret (VInt z)
  | Float l => ret (VFloat l)
  | Bool b => ret (VBool b)
  | Tuple es => vs <- mapM eval es ;; ret (VTuple vs)
  | Slice lo hi => ret (VSlice lo hi)
  | Attr e1 a => o <- eval e1 ;; ext (XGetAttr o a)
  | Subscript e1 i => o <- eval e1 ;; iv <- eval i ;; ext (XGetItem o iv)
  | Invert e1 => o <- eval e1 ;; ext (XInvert o)
  | Call f args =>
      match f with
      | Attr r m =>
          o <- eval r ;; ext (XGetAttr o m) ;;;
          vs <- mapM eval args ;; ext (XCallMethod o m vs)
      | _ =>
          fv <- eval f ;; vs <- mapM eval args ;; ext (XCall fv vs)
      end
  | Kw k e1 => v <- eval e1 ;; ret (VKw k v)
  end.

(** Unpacking the value [o] into [n] values: all of them are taken out
    before any target is assigned. *)
Definition unpack (o : value) (n : nat) : M (list value) :=
  mapM (fun i => ext (XUnpack o n i)) (seq 0 n).

Definition assign_pair (xv : string * value) : M unit :=
  assign (fst xv) (snd xv).

Definition exec_simple (s : simple) : M unit :=
  match s with
  | Import m a => v <- ext (XImport m) ;; assign a v
  | FromImport m x => v <- ext (XImportFrom m x) ;; assign x v
  | Magic l => ext (XMagic l) ;;; ret tt
  | Assign x e => v <- eval e ;; assign x v
  | AssignUnpack xs e =>
      o <- eval e ;; vs <- unpack o (length xs) ;;
      seqM assign_pair (combine xs vs)
  | AssignItem t i e =>
      v <- eval e ;; o <- eval t ;; iv <- eval i ;;
      ext (XSetItem o iv v) ;;; ret tt
  | Expr e => eval e ;;; ret tt
  | Out e => v <- eval e ;; display v
  end.

(** The truth of a value, as Python tests it.  It is fixed by the language
    for None, booleans, integers, strings, tuples, slices and builtin
    functions.  An object of a library is asked ([__bool__], [__len__]),
    and must answer with a boolean; so is a float, which is kept here as
    the text of its literal, so that its value is not known. *)
Definition truthy (v : value) : option bool :=
  match v with
  | VNone => Some false
  | VBool b => Some b
  | VInt z => Some (negb (Z.eqb z 0))
  | VStr s => Some (negb (String.eqb s ""))
  | VTuple vs => Some (match vs with [] => false | _ :: _ => true end)
  | VSlice _ _ => Some true
  | VBuiltin _ => Some true
  | VFloat _ => None
  | VKw _ _ => None
  | VObj _ => None
  end.

Definition truth (v : value) : M bool :=
  match truthy v with
  | Some b => ret b
  | None =>
      x <- ext (XBool v) ;;
      match x with
      | VBool b => ret b
      | _ => raise "TypeError"
      end
  end.

(** Leaving a [with] block whose body ended as [r] did.  After a body that
    ended normally the exit of the manager is called and its value is
    dropped.  After a body that raised, the exit is called with the
    exception: when it returns a true value the exception is dropped and
    the statement ends normally, otherwise the exception goes on.  What the
    exit itself raises, or the test of its value, replaces the exception of
    the body. *)
Definition leave (mgr : value) (r : outcome unit) : M unit :=
  match r with
  | Ok _ => ext (XExit mgr false) ;;; ret tt
  | _ =>
      v <- ext (XExit mgr true) ;;
      b <- truth v ;;
      if b then ret tt else finish r
  end.

Definition cleanup (body : M unit) (mgr : value) : M unit :=
  fun w st =>
    match body w st with
    | (r, st1) => leave mgr r w st1
    end.

Definition exec_stmt (s : stmt) : M unit :=
  match s with
  | Do s1 => exec_simple s1
  | With e x body =>
      mgr <- eval e ;;
      h <- ext (XEnter mgr) ;;
      assign x h ;;;
      cleanup (seqM exec_simple body) mgr
  end.

Definition exec_cell (c : cell) : M unit := seqM exec_stmt c.

(** Running a notebook top to bottom: the run stops at the first cell that
    raises. *)
Definition run (nb : notebook) : M unit := seqM exec_cell (cells nb).

Definition run0 (nb : notebook) (w : world) : outcome unit * state :=
  run nb w st0.

(** ** The notebooks

    One module per notebook file; [cNN] is the code cell at position NN
    (from 0, markdown cells counted) in the file, and [nb] the notebook, the
    list of its code cells in order. *)

(** *** Plotting Images from Kepler Target Pixel Files
    (astropy and astroquery; the file is src/unnamed/part_000, and the
    module is named after the chapter kepler_tpf of _toc.yml) *)
Module kepler_tpf.

Definition c06 : cell :=
  [ Do (Magic "matplotlib inline");
    Do (Import "numpy" "np");
    Do (FromImport "astropy.io" "fits");
    Do (FromImport "astropy.table" "Table");
    Do (Import "matplotlib.pyplot" "plt") ].

Definition c10 : cell :=
  [ Do (FromImport "astroquery.mast" "Mast");
    Do (FromImport "astroquery.mast" "Observations") ].

Definition c12 : cell :=
  [ Do (Assign "keplerObs"
          (Call (Attr (Name "Observations") "query_criteria")
             [Kw "target_name" (Str "kplr008957091");
              Kw "obs_collection" (Str "Kepler")]));
    Do (Assign "keplerProds"
          (Call (Attr (Name "Observations") "get_product_list")
             [Subscript (Name "keplerObs") (Int 0)]));
    Do (Assign "yourProd"
          (Call (Attr (Name "Observations") "filter_products")
             [Name "keplerProds";
              Kw "extension" (Str "kplr008957091-2012277125453_lpd-targ.fits.gz");
              Kw "mrp_only" (Bool false)]));
    Do (Out (Name "yourProd")) ].

Definition c14 : cell :=
  [ Do (Out (Call (Attr (Name "Observations") "download_products")
               [Name "yourProd"; Kw "mrp_only" (Bool false);
                Kw "cache" (Bool false)])) ].

Definition c18 : cell :=
  [ Do (Assign "filename"
          (Str "./mastDownload/Kepler/kplr008957091_lc_Q000000000011111111/kplr008957091-2012277125453_lpd-targ.fits.gz"));
    Do (Out (Call (Attr (Name "fits") "info") [Name "filename"])) ].

Definition c21 : cell :=
  [ With (Call (Attr (Name "fits") "open") [Name "filename"]) "hdulist"
      [ Assign "header1"
          (Attr (Subscript (Name "hdulist") (Int 1)) "header") ];
    Do (Out (Call (Name "print")
               [Call (Name "repr")
                  [Subscript (Name "header1") (Slice (Some 1%Z) (Some 25%Z))]])) ].

Definition c23 : cell :=
  [ With (Call (Attr (Name "fits") "open") [Name "filename"]) "hdulist"
      [ Assign "binaryext"
          (Attr (Subscript (Name "hdulist") (Int 1)) "data") ];
    Do (Assign "binarytab" (Call (Name "Table") [Name "binaryext"]));
    Do (Out (Subscript (Name "binarytab") (Slice (Some 0%Z) (Some 4%Z)))) ].

Definition c25 : cell :=
  [ Do (Out (Call (Name "print")
               [Call (Name "len")
                  [Subscript (Name "binarytab") (Str "TIME")]])) ].

Definition flux_row (n : Z) : expr :=
  Subscript (Subscript (Name "binarytab") (Str "FLUX")) (Int n).

Definition c29 : cell := [ Do (Out (flux_row 0)) ].

Definition c31 : cell :=
  [ Do (Expr (Call (Attr (Name "plt") "title") [Str "Flux Row 0"]));
    Do (Expr (Call (Attr (Name "plt") "xlabel") [Str "Column"]));
    Do (Expr (Call (Attr (Name "plt") "ylabel") [Str "Row"]));
    Do (Expr (Call (Attr (Name "plt") "imshow")
                [flux_row 0;
                 Kw "cmap" (Attr (Attr (Name "plt") "cm") "YlGnBu_r")]));
    Do (Expr (Call (Attr (Name "plt") "colorbar") []));
    Do (Out (Call (Attr (Name "plt") "clim") [Int 0; Int 300])) ].

Definition c33 : cell := [ Do (Out (flux_row 34)) ].

Definition c34 : cell :=
  [ Do (Expr (Call (Attr (Name "plt") "title") [Str "Flux Row 34"]));
    Do (Expr (Call (Attr (Name "plt") "xlabel") [Str "column"]));
    Do (Expr (Call (Attr (Name "plt") "ylabel") [Str "row"]));
    Do (Expr (Call (Attr (Name "plt") "imshow")
                [flux_row 34;
                 Kw "cmap" (Attr (Attr (Name "plt") "cm") "YlGnBu_r")]));
    Do (Expr (Call (Attr (Name "plt") "colorbar") []));
    Do (Out (Call (Attr (Name "plt") "clim") [Int 0; Int 300])) ].

Definition c36 : cell :=
  [ Do (Assign "arr"
          (Call (Attr (Name "np") "subtract") [flux_row 28; flux_row 29]));
    Do (Out (Call (Name "print") [Name "arr"])) ].

Definition c38 : cell :=
  [ Do (Expr (Call (Attr (Name "plt") "title") [Str "Flux Row 28 minus 29"]));
    Do (Expr (Call (Attr (Name "plt") "xlabel") [Str "Column"]));
    Do (Expr (Call (Attr (Name "plt") "ylabel") [Str "Row"]));
    Do (Expr (Call (Attr (Name "plt") "imshow")
                [Name "arr";
                 Kw "cmap" (Attr (Attr (Name "plt") "cm") "YlGnBu_r")]));
    Do (Expr (Call (Attr (Name "plt") "colorbar") []));
    Do (Out (Call (Attr (Name "plt") "clim") [Int (-4); Int 12])) ].

Definition c42 : cell :=
  [ With (Call (Attr (Name "fits") "open") [Name "filename"]) "hdulist"
      [ Assign "imgdata"
          (Attr (Subscript (Name "hdulist") (Int 2)) "data") ];
    Do (Out (Call (Name "print") [Name "imgdata"])) ].

Definition c44 : cell :=
  [ Do (Expr (Call (Attr (Name "plt") "figure") []));
    Do (Expr (Call (Attr (Name "plt") "title") [Str "TPF APERTURE"]));
    Do (Expr (Call (Attr (Name "plt") "xlabel") [Str "Column"]));
    Do (Expr (Call (Attr (Name "plt") "ylabel") [Str "Row"]));
    Do (Out (Call (Attr (Name "plt") "imshow")
               [Name "imgdata";
                Kw "cmap" (Attr (Attr (Name "plt") "cm") "YlGnBu_r")])) ].

Definition nb : notebook :=
  mkNotebook "Plotting Images from Kepler Target Pixel Files"
    [c06; c10; c12; c14; c18; c21; c23; c25; c29; c31; c33; c34; c36; c38;
     c42; c44].

End kepler_tpf.

(** *** Identifying Transiting Planet Signals in a Kepler Light Curve
    (lightkurve; the file is src/unnamed/part_001, and the module is named
    after the chapter of that title in _toc.yml) *)
Module kepler_identifying_transiting_planet_signals.

Definition c04 : cell :=
  [ Do (Import "lightkurve" "lk"); Do (Magic "matplotlib inline") ].

Definition c08 : cell :=
  [ Do (Assign "search_result"
          (Call (Attr (Name "lk") "search_lightcurve")
             [Str "Kepler-69"; Kw "author" (Str "Kepler");
              Kw "cadence" (Str "long")]));
    Do (Assign "lc_collection"
          (Call (Attr (Name "search_result") "download_all") []));
    Do (Expr (Call (Attr (Name "lc_collection") "plot") [])) ].

Definition c10 : cell := [ Do (Out (Name "search_result")) ].

Definition c11 : cell :=
  [ Do (Assign "lc"
          (Call (Attr
                   (Call (Attr
                            (Call (Attr (Name "lc_collection") "stitch") [])
                            "flatten")
                      [Kw "window_length" (Int 901)])
                   "remove_outliers") []));
    Do (Expr (Call (Attr (Name "lc") "plot") [])) ].

Definition c15 : cell :=
  [ Do (Import "numpy" "np");
    Do (Assign "period"
          (Call (Attr (Name "np") "linspace") [Int 1; Int 20; Int 10000]));
    Do (Assign "bls"
          (Call (Attr (Name "lc") "to_periodogram")
             [Kw "method" (Str "bls"); Kw "period" (Name "period");
              Kw "frequency_factor" (Int 100)]));
    Do (Expr (Call (Attr (Name "bls") "plot") [])) ].

Definition c17 : cell :=
  [ Do (Assign "planet_b_period" (Attr (Name "bls") "period_at_max_power"));
    Do (Assign "planet_b_t0" (Attr (Name "bls") "transit_time_at_max_power"));
    Do (Assign "planet_b_dur" (Attr (Name "bls") "duration_at_max_power"));
    Do (Out (Name "planet_b_period")) ].

Definition c19 : cell :=
  [ Do (Assign "ax"
          (Call (Attr
                   (Call (Attr (Name "lc") "fold")
                      [Kw "period" (Name "planet_b_period");
                       Kw "epoch_time" (Name "planet_b_t0")])
                   "scatter") []));
    Do (Expr (Call (Attr (Name "ax") "set_xlim") [Int (-5); Int 5])) ].

Definition c23 : cell :=
  [ Do (Assign "planet_b_mask"
          (Call (Attr (Name "bls") "get_transit_mask")
             [Kw "period" (Name "planet_b_period");
              Kw "transit_time" (Name "planet_b_t0");
              Kw "duration" (Name "planet_b_dur")])) ].

Definition c25 : cell :=
  [ Do (Assign "masked_lc"
          (Subscript (Name "lc") (Invert (Name "planet_b_mask"))));
    Do (Assign "ax" (Call (Attr (Name "masked_lc") "scatter") []));
    Do (Expr (Call (Attr (Subscript (Name "lc") (Name "planet_b_mask"))
                      "scatter")
                [Kw "ax" (Name "ax"); Kw "c" (Str "r");
                 Kw "label" (Str "Masked")])) ].

Definition c27 : cell :=
  [ Do (Assign "planet_b_model"
          (Call (Attr (Name "bls") "get_transit_model")
             [Kw "period" (Name "planet_b_period");
              Kw "transit_time" (Name "planet_b_t0");
              Kw "duration" (Name "planet_b_dur")])) ].

Definition c29 : cell :=
  [ Do (Assign "ax"
          (Call (Attr
                   (Call (Attr (Name "lc") "fold")
                      [Name "planet_b_period"; Name "planet_b_t0"])
                   "scatter") []));
    Do (Expr (Call (Attr
                      (Call (Attr (Name "planet_b_model") "fold")
                         [Name "planet_b_period"; Name "planet_b_t0"])
                      "plot")
                [Kw "ax" (Name "ax"); Kw "c" (Str "r"); Kw "lw" (Int 2)]));
    Do (Expr (Call (Attr (Name "ax") "set_xlim") [Int (-5); Int 5])) ].

Definition c32 : cell :=
  [ Do (Assign "period"
          (Call (Attr (Name "np") "linspace") [Int 1; Int 300; Int 10000]));
    Do (Assign "bls"
          (Call (Attr (Name "masked_lc") "to_periodogram")
             [Str "bls"; Kw "period" (Name "period")]));
    Do (Expr (Call (Attr (Name "bls") "plot") [])) ].

Definition c34 : cell :=
  [ Do (Assign "planet_c_period" (Attr (Name "bls") "period_at_max_power"));
    Do (Assign "planet_c_t0" (Attr (Name "bls") "transit_time_at_max_power"));
    Do (Assign "planet_c_dur" (Attr (Name "bls") "duration_at_max_power"));
    Do (Out (Name "planet_c_period")) ].

Definition c36 : cell :=
  [ Do (Assign "ax"
          (Call (Attr
                   (Call (Attr (Name "masked_lc") "fold")
                      [Name "planet_c_period"; Name "planet_c_t0"])
                   "scatter") []));
    Do (Expr (Call (Attr
                      (Call (Attr
                               (Call (Attr (Name "masked_lc") "fold")
                                  [Name "planet_c_period"; Name "planet_c_t0"])
                               "bin")
                         [Float ".1"])
                      "plot")
                [Kw "ax" (Name "ax"); Kw "c" (Str "r"); Kw "lw" (Int 2);
                 Kw "label" (Str "Binned Flux")]));
    Do (Expr (Call (Attr (Name "ax") "set_xlim") [Int (-5); Int 5])) ].

Definition c38 : cell :=
  [ Do (Assign "planet_c_model"
          (Call (Attr (Name "bls") "get_transit_model")
             [Kw "period" (Name "planet_c_period");
              Kw "transit_time" (Name "planet_c_t0");
              Kw "duration" (Name "planet_c_dur")])) ].

Definition c39 : cell :=
  [ Do (Assign "ax" (Call (Attr (Name "lc") "scatter") []));
    Do (Expr (Call (Attr (Name "planet_b_model") "plot")
                [Kw "ax" (Name "ax"); Kw "c" (Str "dodgerblue");
                 Kw "label" (Str "Planet b Transit Model")]));
    Do (Expr (Call (Attr (Name "planet_c_model") "plot")
                [Kw "ax" (Name "ax"); Kw "c" (Str "r");
                 Kw "label" (Str "Planet c Transit Model")])) ].

Definition c45 : cell :=
  [ Do (Out (Call (Attr (Name "lk") "show_citation_instructions") [])) ].

Definition nb : notebook :=
  mkNotebook "Identifying Transiting Planet Signals in a Kepler Light Curve"
    [c04; c08; c10; c11; c15; c17; c19; c23; c25; c27; c29; c32; c34; c36;
     c38; c39; c45].

End kepler_identifying_transiting_planet_signals.

(** *** Plotting Kepler Target Pixel File Products with Lightkurve
    (file kepler_plotting_target_pixel_files.ipynb) *)
Module kepler_plotting_target_pixel_files.

Definition c05 : cell :=
  [ Do (Import "lightkurve" "lk");
    Do (Import "matplotlib.pyplot" "plt");
    Do (Magic "matplotlib inline") ].

Definition c08 : cell :=
  [ Do (Assign "search_result"
          (Call (Attr (Name "lk") "search_targetpixelfile")
             [Str "Kepler-8"; Kw "mission" (Str "Kepler");
              Kw "quarter" (Int 4)]));
    Do (Out (Name "search_result")) ].

Definition c09 : cell :=
  [ Do (Assign "tpf" (Call (Attr (Name "search_result") "download") [])) ].

Definition c11 : cell :=
  [ Do (Assign "first_cadence" (Subscript (Name "tpf") (Int 0)));
    Do (Out (Name "first_cadence")) ].

Definition c14 : cell :=
  [ Do (Out (Attr (Attr (Name "first_cadence") "flux") "value")) ].

Definition c16 : cell :=
  [ Do (Expr (Call (Attr (Name "first_cadence") "plot")
                [Kw "column" (Str "flux")])) ].

Definition axes_at (i j : Z) : expr :=
  Subscript (Name "axes") (Tuple [Int i; Int j]).

Definition c20 : cell :=
  [ Do (AssignUnpack ["fig"; "axes"]
          (Call (Attr (Name "plt") "subplots")
             [Int 2; Int 2; Kw "figsize" (Tuple [Int 16; Int 16])]));
    Do (Expr (Call (Attr (Name "first_cadence") "plot")
                [Kw "ax" (axes_at 0 0); Kw "column" (Str "FLUX")]));
    Do (Expr (Call (Attr (Name "first_cadence") "plot")
                [Kw "ax" (axes_at 0 1); Kw "column" (Str "FLUX_BKG")]));
    Do (Expr (Call (Attr (Name "first_cadence") "plot")
                [Kw "ax" (axes_at 1 0); Kw "column" (Str "FLUX_ERR")]));
    Do (Expr (Call (Attr (Name "first_cadence") "plot")
                [Kw "ax" (axes_at 1 1); Kw "column" (Str "FLUX_BKG_ERR")])) ].

Definition c23 : cell :=
  [ Do (Expr (Call (Attr (Name "first_cadence") "plot")
                [Kw "bkg" (Bool true)])) ].

Definition c28 : cell :=
  [ Do (Out (Attr (Name "first_cadence") "pipeline_mask")) ].

Definition c30 : cell :=
  [ Do (Expr (Call (Attr (Name "first_cadence") "plot")
                [Kw "aperture_mask"
                   (Attr (Name "first_cadence") "pipeline_mask")])) ].

Definition c35 : cell :=
  [ Do (Assign "lc" (Call (Attr (Name "tpf") "to_lightcurve") [])) ].

Definition c37 : cell := [ Do (Out (Name "lc")) ].

Definition c39 : cell := [ Do (Expr (Call (Attr (Name "lc") "plot") [])) ].

Definition c42 : cell :=
  [ Do (Assign "bkg" (Call (Attr (Name "tpf") "get_bkg_lightcurve") []));
    Do (Expr (Call (Attr (Name "bkg") "plot") [])) ].

(** Cell 47 holds a comment only. *)
Definition c47 : cell := [].

Definition c48 : cell :=
  [ Do (Assign "datalist"
          (Call (Attr (Name "lk") "search_targetpixelfile") [Str "Kepler-10"]));
    Do (Out (Name "datalist")) ].

Definition c49 : cell :=
  [ Do (Assign "kep"
          (Call (Attr (Subscript (Name "datalist") (Int 6)) "download") []));
    Do (Assign "tes"
          (Call (Attr (Subscript (Name "datalist") (Int 15)) "download") [])) ].

Definition c50 : cell :=
  [ Do (AssignUnpack ["fig"; "axes"]
          (Call (Attr (Name "plt") "subplots")
             [Int 1; Int 2; Kw "figsize" (Tuple [Int 14; Int 6])]));
    Do (Expr (Call (Attr (Name "kep") "plot")
                [Kw "ax" (Subscript (Name "axes") (Int 0));
                 Kw "aperture_mask" (Attr (Name "kep") "pipeline_mask");
                 Kw "scale" (Str "log")]));
    Do (Expr (Call (Attr (Name "tes") "plot")
                [Kw "ax" (Subscript (Name "axes") (Int 1));
                 Kw "aperture_mask" (Attr (Name "tes") "pipeline_mask")]));
    Do (Expr (Call (Attr (Name "fig") "tight_layout") [])) ].

Definition c51 : cell :=
  [ Do (Assign "lc_kep" (Call (Attr (Name "kep") "to_lightcurve") []));
    Do (Assign "lc_tes" (Call (Attr (Name "tes") "to_lightcurve") [])) ].

Definition c52 : cell :=
  [ Do (AssignUnpack ["fig"; "axes"]
          (Call (Attr (Name "plt") "subplots")
             [Int 1; Int 2; Kw "figsize" (Tuple [Int 14; Int 6]);
              Kw "sharey" (Bool true)]));
    Do (Expr (Call (Attr (Call (Attr (Name "lc_kep") "flatten") []) "plot")
                [Kw "ax" (Subscript (Name "axes") (Int 0));
                 Kw "c" (Str "k"); Kw "alpha" (Float ".8")]));
    Do (Expr (Call (Attr (Call (Attr (Name "lc_tes") "flatten") []) "plot")
                [Kw "ax" (Subscript (Name "axes") (Int 1));
                 Kw "c" (Str "k"); Kw "alpha" (Float ".8")])) ].

Definition nb : notebook :=
  mkNotebook "Plotting Kepler Target Pixel File Products with Lightkurve"
    [c05; c08; c09; c11; c14; c16; c20; c23; c28; c30; c35; c37; c39; c42;
     c47; c48; c49; c50; c51; c52].

End kepler_plotting_target_pixel_files.

(** *** Creating Your Own Light Curves using Custom Aperture Photometry
    (file kepler_creating_your_own_light_curves.ipynb) *)
Module kepler_creating_your_own_light_curves.

Definition search_tpf (target : string) : expr :=
  Call (Attr (Name "lk") "search_targetpixelfile")
    [Str target; Kw "mission" (Str "Kepler"); Kw "cadence" (Str "long");
     Kw "quarter" (Int 10)].

(** [tpf.to_lightcurve(aperture_mask=a).normalize()] *)
Definition normalized (a : expr) : expr :=
  Call (Attr (Call (Attr (Name "tpf") "to_lightcurve") [Kw "aperture_mask" a])
          "normalize") [].

Definition c04 : cell :=
  [ Do (Import "lightkurve" "lk");
    Do (Import "numpy" "np");
    Do (Magic "matplotlib inline") ].

Definition c08 : cell :=
  [ Do (Assign "tpf_example"
          (Call (Attr (search_tpf "KIC 7461601") "download") [])) ].

Definition c09 : cell :=
  [ Do (Expr (Call (Attr (Name "tpf_example") "plot") [])) ].

Definition c11 : cell :=
  [ Do (Expr (Call (Attr (Name "tpf_example") "plot")
                [Kw "aperture_mask" (Str "pipeline")])) ].

Definition c17 : cell :=
  [ Do (Assign "tpf"
          (Call (Attr (search_tpf "KIC 2437317") "download")
             [Kw "quality_bitmask" (Str "hard")])) ].

Definition c19 : cell := [ Do (Expr (Call (Attr (Name "tpf") "plot") [])) ].

Definition c21 : cell :=
  [ Do (Expr (Call (Attr (Name "tpf") "plot")
                [Kw "aperture_mask" (Str "pipeline")])) ].

Definition c23 : cell :=
  [ Do (Assign "lc"
          (Call (Attr (Name "tpf") "to_lightcurve")
             [Kw "aperture_mask" (Str "pipeline")]));
    Do (Expr (Call (Attr (Name "lc") "plot") [])) ].

Definition c26 : cell :=
  [ Do (Assign "ax"
          (Call (Attr (normalized (Str "pipeline")) "plot")
             [Kw "label" (Str "pipeline"); Kw "linewidth" (Int 2)]));
    Do (Expr (Call (Attr (normalized (Str "threshold")) "plot")
                [Kw "ax" (Name "ax"); Kw "label" (Str "threshold");
                 Kw "linewidth" (Int 2)]));
    Do (Expr (Call (Attr (normalized (Str "all")) "plot")
                [Kw "ax" (Name "ax"); Kw "label" (Str "all");
                 Kw "linewidth" (Int 2)])) ].

Definition c28 : cell :=
  [ Do (Out (Call (Attr (Name "tpf") "create_threshold_mask") [])) ].

Definition c30 : cell :=
  [ Do (Assign "custom_threshold_mask"
          (Call (Attr (Name "tpf") "create_threshold_mask")
             [Kw "threshold" (Int 1)]));
    Do (Out (Name "custom_threshold_mask")) ].

Definition c32 : cell :=
  [ Do (Assign "ax"
          (Call (Attr (normalized (Str "pipeline")) "plot")
             [Kw "label" (Str "pipeline"); Kw "alpha" (Float ".3")]));
    Do (Expr (Call (Attr (normalized (Str "threshold")) "plot")
                [Kw "ax" (Name "ax"); Kw "label" (Str "threshold");
                 Kw "alpha" (Float ".3")]));
    Do (Expr (Call (Attr (normalized (Str "all")) "plot")
                [Kw "ax" (Name "ax"); Kw "label" (Str "all");
                 Kw "alpha" (Float ".3")]));
    Do (Expr (Call (Attr (normalized (Name "custom_threshold_mask")) "plot")
                [Kw "ax" (Name "ax"); Kw "label" (Str "custom threshold");
                 Kw "linewidth" (Int 2)])) ].

Definition c35 : cell :=
  [ Do (Assign "tpf_crowded"
          (Call (Attr (search_tpf "KIC 2437901") "download")
             [Kw "quality_bitmask" (Str "hard")])) ].

Definition c36 : cell :=
  [ Do (Expr (Call (Attr (Name "tpf_crowded") "plot")
                [Kw "aperture_mask" (Str "pipeline")])) ].

Definition c38 : cell :=
  [ Do (Out (Call (Attr (Name "tpf_crowded") "create_threshold_mask")
               [Kw "threshold" (Int 1)])) ].

Definition c40 : cell :=
  [ Do (Expr (Call (Attr (Name "tpf_crowded") "plot")
                [Kw "aperture_mask"
                   (Call (Attr (Name "tpf_crowded") "create_threshold_mask")
                      [Kw "threshold" (Int 1)])])) ].

Definition c42 : cell :=
  [ Do (Assign "custom_mask"
          (Call (Attr (Name "tpf_crowded") "create_threshold_mask")
             [Kw "threshold" (Int 1);
              Kw "reference_pixel" (Tuple [Int 7; Int 7])]));
    Do (Expr (Call (Attr (Name "tpf_crowded") "plot")
                [Kw "aperture_mask" (Name "custom_mask")])) ].

Definition c44 : cell :=
  [ Do (Assign "lc_background_star"
          (Call (Attr (Name "tpf_crowded") "to_lightcurve")
             [Kw "aperture_mask" (Name "custom_mask")]));
    Do (Expr (Call (Attr (Name "lc_background_star") "plot") [])) ].

(** [t[0].shape[1:]]: the shape of one image of the pixel file [t]. *)
Definition image_shape (t : string) : expr :=
  Subscript (Attr (Subscript (Name t) (Int 0)) "shape")
    (Slice (Some 1%Z) None).

Definition c47 : cell :=
  [ Do (Assign "custom_mask"
          (Call (Attr (Name "np") "zeros")
             [image_shape "tpf_crowded"; Kw "dtype" (Str "bool")]));
    Do (AssignItem (Name "custom_mask")
          (Tuple [Slice (Some (-3)%Z) None; Slice (Some 5%Z) None])
          (Bool true));
    Do (Out (Name "custom_mask")) ].

Definition c49 : cell :=
  [ Do (Expr (Call (Attr (Name "tpf_crowded") "plot")
                [Kw "aperture_mask" (Name "custom_mask")])) ].

Definition c51 : cell :=
  [ Do (Expr (Call (Attr (Name "tpf_crowded") "plot") [])) ].

Definition c52 : cell :=
  [ Do (Assign "tpf_cut"
          (Call (Attr (Name "tpf_crowded") "cutout")
             [Kw "center" (Tuple [Int 8; Int 7])])) ].

Definition c53 : cell :=
  [ Do (Expr (Call (Attr (Name "tpf_cut") "plot") [])) ].

Definition c55 : cell :=
  [ Do (Out (Call (Attr (Name "tpf_cut") "create_threshold_mask")
               [Kw "threshold" (Int 1)])) ].

Definition c57 : cell :=
  [ Do (Assign "cut_mask"
          (Call (Attr (Name "np") "zeros")
             [image_shape "tpf_cut"; Kw "dtype" (Str "bool")]));
    Do (AssignItem (Name "cut_mask") (Tuple [Slice None None; Int 1])
          (Bool true));
    Do (AssignItem (Name "cut_mask") (Tuple [Int 1; Int 2]) (Bool true));
    Do (Out (Name "cut_mask")) ].

Definition c58 : cell :=
  [ Do (Expr (Call (Attr (Name "tpf_cut") "plot")
                [Kw "aperture_mask" (Name "cut_mask")])) ].

Definition c59 : cell :=
  [ Do (Assign "lc_background_star_cut"
          (Call (Attr (Name "tpf_cut") "to_lightcurve")
             [Kw "aperture_mask" (Name "cut_mask")]));
    Do (Expr (Call (Attr (Name "lc_background_star_cut") "plot") [])) ].

Definition c64 : cell :=
  [ Do (Out (Call (Attr (Name "lk") "show_citation_instructions") [])) ].

Definition nb : notebook :=
  mkNotebook "Creating Your Own Light Curves using Custom Aperture Photometry"
    [c04; c08; c09; c11; c17; c19; c21; c23; c26; c28; c30; c32; c35; c36;
     c38; c40; c42; c44; c47; c49; c51; c52; c53; c55; c57; c58; c59; c64].

End kepler_creating_your_own_light_curves.

(** The four notebooks, by short names. *)
Definition fits_images : notebook := kepler_tpf.nb.
Definition transit_signals : notebook :=
  kepler_identifying_transiting_planet_signals.nb.
Definition tpf_plots : notebook := kepler_plotting_target_pixel_files.nb.
Definition own_light_curves : notebook :=
  kepler_creating_your_own_light_curves.nb.

Definition notebooks : list notebook :=
  [fits_images; transit_signals; tpf_plots; own_light_curves].

(** * What is stated of the runs *)

(** ** Worlds in which every call returns *)

(** The world that answers the k-th call with the value [v k]. *)
Definition oks (v : nat -> value) : world := fun k => Ret (v k).

(** The world that names every object by the call that returned it. *)
Definition tags : world := oks VObj.

Definition val (r : response) : value :=
  match r with Ret v => v | Exc _ => VNone end.

Definition is_ret (r : response) : bool :=
  match r with Ret _ => true | Exc _ => false end.

(** [heal w] answers as [w] does, but returns None where [w] raises. *)
Definition heal (w : world) : world := oks (fun k => val (w k)).

(** The calls [a, a+1, ..., a+n-1] all return in [w]. *)
Definition all_ret (w : world) (a n : nat) : bool :=
  forallb (fun k => is_ret (w k)) (seq a n).

(** The number of external calls of the complete run of a notebook. *)
Definition ncalls (nb : notebook) : nat := pos (snd (run0 nb tags)).

(** ** Straight-line scripts *)

(** The operation of a call: the call without the values it is applied
    to. *)
Inductive op : Type :=
| OImport (module : string)
| OImportFrom (module name : string)
| OMagic (line : string)
| OGetAttr (a : string)
| OCall (nargs : nat)
| OCallMethod (m : string) (nargs : nat)
| OGetItem
| OSetItem
| OInvert
| OUnpack (n i : nat)
| OEnter
| OExit (raising : bool)
| ODisplay
| OBool.

Definition op_of (c : extcall) : op :=
  match c with
  | XImport m => OImport m
  | XImportFrom m x => OImportFrom m x
  | XMagic l => OMagic l
  | XGetAttr _ a => OGetAttr a
  | XCall _ args => OCall (length args)
  | XCallMethod _ m args => OCallMethod m (length args)
  | XGetItem _ _ => OGetItem
  | XSetItem _ _ _ => OSetItem
  | XInvert _ => OInvert
  | XUnpack _ n i => OUnpack n i
  | XEnter _ => OEnter
  | XExit _ b => OExit b
  | XDisplay _ => ODisplay
  | XBool _ => OBool
  end.

Definition ops (st : state) : list op := map op_of (calls st).

(** The operations of the complete run of a notebook, in order. *)
Definition plan (nb : notebook) : list op := ops (snd (run0 nb tags)).

(** ** How a run ends

    A run is described against a complete run of the same notebook: the
    run in a world [wr] in which it reaches its end.  The calls of a
    notebook are plain calls, made by expressions and simple statements,
    and the two brackets of a [with] block, the enter and the exit of its
    manager. *)

Definition bracket (o : op) : bool :=
  match o with
  | OEnter => true
  | OExit _ => true
  | _ => false
  end.

Definition plain (c : extcall) : bool := negb (bracket (op_of c)).

Definition is_display (o : op) : bool :=
  match o with
  | ODisplay => true
  | _ => false
  end.

(** Reading the brackets of a list of operations from the left: inside a
    block or not at the end, if the brackets alternate. *)
Fixpoint scan (inside : bool) (P : list op) : option bool :=
  match P with
  | [] => Some inside
  | OEnter :: P1 => if inside then None else scan true P1
  | OExit _ :: P1 => if inside then scan false P1 else None
  | _ :: P1 => scan inside P1
  end.

(** The operation number [f] of [P] is a plain call of the body of a
    block. *)
Definition in_body (P : list op) (f : nat) : bool :=
  match scan false (firstn f P), nth_error P f with
  | Some true, Some o => negb (bracket o)
  | _, _ => false
  end.

(** The operation number [f] of [P] hands a value to the display hook. *)
Definition displayed (P : list op) (f : nat) : bool :=
  match nth_error P f with
  | Some o => is_display o
  | None => false
  end.

(** A complete run calls no exit with an exception and tests no truth. *)
Definition calm (P : list op) : bool :=
  forallb (fun o => match o with
                    | OExit true => false
                    | OBool => false
                    | _ => true
                    end) P.

Definition is_enter (c : extcall) : bool :=
  match c with
  | XEnter _ => true
  | _ => false
  end.

(** The manager of the block that is open before the call number [f]. *)
Definition manager (C : list extcall) (f : nat) : value :=
  match find is_enter (rev (firstn f C)) with
  | Some (XEnter mgr) => mgr
  | _ => VNone
  end.

(** What becomes of the exception of the body of a block when the exit of
    the manager is the call number [p]: it goes on, it is replaced by what
    the exit raises (or the test of the value of the exit), or it is
    dropped, when the exit returns a true value. *)
Inductive verdict : Type :=
| Goes_on
| Replaced (e : exn)
| Dropped.

Definition exit_verdict (w : world) (p : nat) : verdict :=
  match w p with
  | Exc e2 => Replaced e2
  | Ret v =>
      match truthy v with
      | Some true => Dropped
      | Some false => Goes_on
      | None =>
          match w (S p) with
          | Exc e3 => Replaced e3
          | Ret (VBool true) => Dropped
          | Ret (VBool false) => Goes_on
          | Ret _ => Replaced "TypeError"
          end
      end
  end.

(** The calls made on the way out of the block: the exit, and the test of
    the value it returned when that value is an object. *)
Definition exit_calls (mgr : value) (w : world) (p : nat) : list extcall :=
  XExit mgr true ::
  match w p with
  | Ret v => match truthy v with
             | None => [XBool v]
             | Some _ => []
             end
  | Exc _ => []
  end.

(** The calls [a .. b-1] are answered alike in [w] and [wr]. *)
Definition agree (w wr : world) (a b : nat) : Prop :=
  forall k, a <= k < b -> w k = wr k.

Definition extends (st stf : state) : Prop :=
  exists d, log stf = log st ++ d.

(** [strict m]: a computation without blocks.  Whenever [m] runs to its end
    in [wr], making the calls [C], then it makes plain calls only, and in a
    world [w] it does the same as long as [w] answers as [wr]; and when the
    first call that [w] answers otherwise is no display and raises, [m]
    stops there with that exception, having made the calls of [C] up to
    there. *)
Definition strict A (m : M A) : Prop :=
  (forall w st, extends st (snd (m w st))) /\
  forall w wr st a stf, m wr st = (Ok a, stf) ->
    (exists d, log stf = log st ++ d /\ forallb plain (map fst d) = true) /\
    (agree w wr (pos st) (pos stf) -> m w st = (Ok a, stf)) /\
    (forall f e, pos st <= f < pos stf -> agree w wr (pos st) f ->
       w f = Exc e -> displayed (ops stf) f = false ->
       exists st', m w st = (Raised e, st') /\
                   calls st' = firstn (S f) (calls stf)).

(** How a run [r] ends when the call number [f] of the complete run with
    calls [C] is the first to raise, with [e], and is no display.  Outside
    a block the run stops there with [e]. In the body of a block the exit
    of the manager is called, and the run stops with [e], or with what
    replaces it; when the exit drops the exception the run goes on after
    the block. *)
Definition ends_at A (r : outcome A * state) (w : world)
    (C : list extcall) (f : nat) (e : exn) : Prop :=
  if in_body (map op_of C) f then
    match exit_verdict w (S f) with
    | Goes_on =>
        fst r = Raised e /\
        calls (snd r) = firstn (S f) C ++ exit_calls (manager C f) w (S f)
    | Replaced e2 =>
        fst r = Raised e2 /\
        calls (snd r) = firstn (S f) C ++ exit_calls (manager C f) w (S f)
    | Dropped =>
        exists d,
          calls (snd r)
          = (firstn (S f) C ++ exit_calls (manager C f) w (S f)) ++ d
    end
  else fst r = Raised e /\ calls (snd r) = firstn (S f) C.

(** The state in which the body of a block starts: the manager [mgr] was
    entered from [st] and returned [h], which is bound to [x]. *)
Definition entered (x : string) (h mgr : value) (st : state) : state :=
  mkState ((x, h) :: filter (fun p => negb (String.eqb x (fst p)))
                            (globals st))
          (log st ++ [(XEnter mgr, Ret h)]).

(** [lenient m]: a sequence of statements, started outside of a block. *)
Definition outside (st : state) : Prop := scan false (ops st) = Some false.

Definition lenient A (m : M A) : Prop :=
  (forall w st, extends st (snd (m w st))) /\
  forall w wr st a stf,
    outside st -> m wr st = (Ok a, stf) -> calm (ops stf) = true ->
    extends st stf /\ outside stf /\
    (agree w wr (pos st) (pos stf) -> m w st = (Ok a, stf)) /\
    (forall f e, pos st <= f < pos stf -> agree w wr (pos st) f ->
       w f = Exc e -> displayed (ops stf) f = false ->
       ends_at (m w st) w (calls stf) f e).

(** The log of a run only grows, and two worlds that answer alike give the
    same run. *)
Definition steady A (m : M A) : Prop :=
  (forall w st, extends st (snd (m w st))) /\
  (forall w1 w2 st, (forall k, w1 k = w2 k) -> m w1 st = m w2 st).

(** ** Notebooks: the complete run and the first failure *)

(** The operation number [k] of the complete run of [nb] is a display. *)
Definition displays_at (nb : notebook) (k : nat) : bool :=
  displayed (plan nb) k.

(** [mend nb w] answers as [w] does, but returns None where [w] raises,
    unless the call is a display: the complete run of [nb] with the values
    that [w] returns. *)
Definition mend (nb : notebook) (w : world) : world :=
  let P := plan nb in
  fun k => if displayed P k then w k else Ret (val (w k)).

(** The world that answers as [mend nb w] before the call number [f],
    raises [e] at [f], answers [r1] and [r2] to the two calls after it, and
    then goes on as [w]. *)
Definition patched (nb : notebook) (w : world) (f : nat) (e : exn)
    (r1 r2 : response) : world :=
  let m := mend nb w in
  fun k => if Nat.ltb k f then m k
           else if Nat.eqb k f then Exc e
           else if Nat.eqb k (S f) then r1
           else if Nat.eqb k (S (S f)) then r2
           else w k.

(** The calls before the call number [n] return, but for displays. *)
Definition quiet (nb : notebook) (w : world) (n : nat) : bool :=
  forallb (fun k => displays_at nb k || is_ret (w k)) (seq 0 n).

(** The first call of [nb] that fails in [w] and is no display is the call
    number [f], and it raises [e]. *)
Definition first_failure (nb : notebook) (w : world) (f : nat) (e : exn)
  : Prop :=
  f < ncalls nb /\ quiet nb w f = true /\ displays_at nb f = false /\
  w f = Exc e.

(** The calls of the complete run of [nb] with the values of [w]. *)
Definition complete_calls (nb : notebook) (w : world) : list extcall :=
  calls (snd (run0 nb (mend nb w))).

(** How the run of a notebook ends after its first failure: as [ends_at]
    says, and when the exit of the block drops the exception, the cell goes
    on to a name that the body of the block has not bound. *)
Definition fails_at (nb : notebook) (w : world) (f : nat) (e : exn) : Prop :=
  let r := run0 nb w in
  let C := complete_calls nb w in
  if in_body (plan nb) f then
    calls (snd r) = firstn (S f) C ++ exit_calls (manager C f) w (S f) /\
    match exit_verdict w (S f) with
    | Goes_on => fst r = Raised e
    | Replaced e2 => fst r = Raised e2
    | Dropped => exists x, fst r = NameError x
    end
  else fst r = Raised e /\ calls (snd r) = firstn (S f) C.

(** ** Induction on expressions *)

Section ExprInduction.
Variable P : expr -> Prop.
Hypothesis HName : forall x, P (Name x).
Hypothesis HStr : forall s, P (Str s).
Hypothesis HInt : forall z, P (Int z).
Hypothesis HFloat : forall l, P (Float l).
Hypothesis HBool : forall b, P (Bool b).
Hypothesis HTuple : forall es, Forall P es -> P (Tuple es).
Hypothesis HSlice : forall lo hi, P (Slice lo hi).
Hypothesis HAttr : forall e a, P e -> P (Attr e a).
Hypothesis HSubscript : forall e i, P e -> P i -> P (Subscript e i).
Hypothesis HInvert : forall e, P e -> P (Invert e).
Hypothesis HCall : forall f args, P f -> Forall P args -> P (Call f args).
Hypothesis HKw : forall k e, P e -> P (Kw k e).

Fixpoint expr_rect_nested (e : expr) : P e :=
  let all :=
    fix all (l : list expr) : Forall P l :=
      match l with
      | [] => Forall_nil P
      | x :: l1 => Forall_cons x (expr_rect_nested x) (all l1)
      end in
  match e with
  | Name x => HName x
  | Str s => HStr s
  | Int z => HInt z
  | Float l => HFloat l
  | Bool b => HBool b
  | Tuple es => HTuple (all es)
  | Slice lo hi => HSlice lo hi
  | Attr e1 a => HAttr a (expr_rect_nested e1)
  | Subscript e1 i => HSubscript (expr_rect_nested e1) (expr_rect_nested i)
  | Invert e1 => HInvert (expr_rect_nested e1)
  | Call f args => HCall (expr_rect_nested f) (all args)
  | Kw k e1 => HKw k (expr_rect_nested e1)
  end.
End ExprInduction.

Unset Implicit Arguments.

Ltac each_notebook H :=
  unfold notebooks, In in H;
  destruct H as [<-|[<-|[<-|[<-|[]]]]].

(** ** Worlds in which a call fails *)




Definition history := list (extcall * response).

(** ** Kinds of calls *)

Definition method_of (c : extcall) : option string :=
  match c with XCallMethod _ m _ => Some m | _ => None end.

Definition named (ns : list string) (c : extcall) : bool :=
  match method_of c with
  | Some m => existsb (String.eqb m) ns
  | None => false
  end.

(** Calls that draw: lightkurve's [plot] and [scatter], pyplot's [imshow]. *)
Definition is_plot : extcall -> bool := named ["plot"; "scatter"; "imshow"].

(** Queries of the remote archive. *)
Definition is_query : extcall -> bool :=
  named ["query_criteria"; "get_product_list"; "search_lightcurve";
         "search_targetpixelfile"].

(** Downloads of archive files into the local working directory. *)
Definition is_download : extcall -> bool :=
  named ["download"; "download_all"; "download_products"].

Definition count (p : extcall -> bool) (st : state) : nat :=
  length (filter p (calls st)).

(** ** Queries, downloads and plots *)

(** The claim as the specification words it. *)
Definition one_query_one_download_two_plots : Prop :=
  forall nb w, In nb notebooks -> all_ret w 0 (ncalls nb) = true ->
    count is_query (snd (run0 nb w)) <= 1 /\
    count is_download (snd (run0 nb w)) <= 1 /\
    count is_plot (snd (run0 nb w)) <= 2.

(** ** Outputs and persisted files *)

(** What a call leaves behind, by the method it calls.  The display hook
    shows nothing for None. *)
Inductive effect : Type :=
| Silent
| Inline_plot
| Text_output
| Downloaded_file
| Written_file.

(** Methods of astropy, numpy, matplotlib and lightkurve objects, and of
    Python files, that write a file. *)
Definition file_writers : list string :=
  ["write"; "writelines"; "writeto"; "savefig"; "imsave"; "save"; "savez";
   "savetxt"; "tofile"; "dump"; "to_fits"; "to_csv"; "to_pickle";
   "to_excel"].

Definition effect_of (c : extcall) : effect :=
  if is_plot c then Inline_plot
  else if is_download c then Downloaded_file
  else if named file_writers c then Written_file
  else match c with
       | XDisplay VNone => Silent
       | XDisplay _ => Text_output
       | XCall (VBuiltin b) _ =>
           if String.eqb b "print" then Text_output else Silent
       | _ => Silent
       end.

Definition writes_file (c : extcall) : bool :=
  negb (is_plot c) && negb (is_download c) && named file_writers c.

(** ** Randomness, clock and environment *)

(** The names under which Python programs read randomness, the clock or
    the environment of the process: modules, and functions and attributes
    of modules and of numpy. *)
Definition ambient_names : list string :=
  ["random"; "secrets"; "uuid"; "time"; "datetime"; "os"; "sys"; "getpass";
   "socket"; "platform"; "rand"; "randn"; "randint"; "choice"; "shuffle";
   "seed"; "default_rng"; "normal"; "uniform"; "permutation"; "now";
   "today"; "utcnow"; "environ"; "getenv"; "getcwd"; "urandom"].

(** The components of a dotted path: [numpy.random] has the components
    [numpy] and [random]. *)
Fixpoint components_from (acc s : string) : list string :=
  match s with
  | EmptyString => [acc]
  | String c s1 =>
      if Ascii.eqb c "."%char then acc :: components_from EmptyString s1
      else components_from (String.append acc (String c EmptyString)) s1
  end.

Definition components (s : string) : list string :=
  components_from EmptyString s.

Definition ambient_name (x : string) : bool :=
  existsb (String.eqb x) ambient_names.

Definition ambient_path (m : string) : bool :=
  existsb ambient_name (components m).

(** A call that reads randomness, the clock or the environment: the import
    of such a module or name, the load or the call of such an attribute,
    and any magic but [%matplotlib].  (The builtins of the fragment are
    [print], [repr] and [len]; a cell that names another one raises
    NameError.) *)
Definition is_ambient (c : extcall) : bool :=
  match c with
  | XImport m => ambient_path m
  | XImportFrom m x => ambient_path m || ambient_path x
  | XMagic l => negb (String.prefix "matplotlib" l)
  | XGetAttr _ a => ambient_name a
  | XCallMethod _ m _ => ambient_name m
  | _ => false
  end.

(** ** Runs determined by what the libraries return *)




(** The library that names each object by the number of the call. *)
Definition naming_lib : history -> extcall -> response :=
  fun h _ => Ret (VObj (length h)).

(** The answers logged in [L], after the history [h], are reproducible:
    each answer to a call that does not read randomness, the clock or the
    environment is what [lib] returns to that call after the calls before
    it.  The answers to the other calls are free. *)
Fixpoint reproducible_from (lib : history -> extcall -> response)
    (h L : history) : Prop :=
  match L with
  | [] => True
  | (c, r) :: L1 =>
      (is_ambient c = false -> r = lib h c) /\
      reproducible_from lib (h ++ [(c, r)]) L1
  end.

Definition reproducible (lib : history -> extcall -> response)
    (L : history) : Prop :=
  reproducible_from lib [] L.


(** A notebook of the fragment that is not in the repository: it draws a
    random number with numpy. *)
Definition dice : notebook :=
  mkNotebook "a random number"
    [ [ Do (FromImport "numpy" "random") ];
      [ Do (Out (Call (Attr (Name "random") "rand") [])) ] ].

(** Two answers of numpy's generator. *)
Definition heads : world :=
  fun k => if Nat.eqb k 2 then Ret (VFloat "0.25") else Ret (VObj k).

Definition tails : world :=
  fun k => if Nat.eqb k 2 then Ret (VFloat "0.75") else Ret (VObj k).

(** ** Where values come from: the run that names objects by their call *)

(** In the world [tags] the object returned by the call number [j] is
    [VObj j]; every other complete run is this one with the objects
    renamed. *)
Fixpoint rename (v : nat -> value) (a : value) : value :=
  match a with
  | VObj k => v k
  | VTuple vs => VTuple (map (rename v) vs)
  | VKw k x => VKw k (rename v x)
  | _ => a
  end.

Definition rename_call (v : nat -> value) (c : extcall) : extcall :=
  match c with
  | XGetAttr o a => XGetAttr (rename v o) a
  | XCall f args => XCall (rename v f) (map (rename v) args)
  | XCallMethod o m args => XCallMethod (rename v o) m (map (rename v) args)
  | XGetItem o i => XGetItem (rename v o) (rename v i)
  | XSetItem o i x => XSetItem (rename v o) (rename v i) (rename v x)
  | XInvert o => XInvert (rename v o)
  | XUnpack o n i => XUnpack (rename v o) n i
  | XEnter o => XEnter (rename v o)
  | XExit o b => XExit (rename v o) b
  | XDisplay o => XDisplay (rename v o)
  | XBool o => XBool (rename v o)
  | _ => c
  end.

Definition rename_response (v : nat -> value) (r : response) : response :=
  match r with
  | Ret a => Ret (rename v a)
  | Exc e => Exc e
  end.

Definition rename_state (v : nat -> value) (st : state) : state :=
  mkState (map (fun p => (fst p, rename v (snd p))) (globals st))
          (map (fun p => (rename_call v (fst p), rename_response v (snd p)))
               (log st)).

(** The log of the named run. *)
Definition flow (nb : notebook) : history := log (snd (run0 nb tags)).

Definition returns_own_number (p : nat * (extcall * response)) : bool :=
  match snd (snd p) with
  | Ret (VObj k) => Nat.eqb k (fst p)
  | _ => false
  end.

(** ** Aperture masks *)

Definition is_kw (k : string) (a : value) : bool :=
  match a with
  | VKw k1 _ => String.eqb k k1
  | _ => false
  end.

(** The value of the keyword argument [k] among the arguments. *)
Definition kw_arg (k : string) (args : list value) : option value :=
  match find (is_kw k) args with
  | Some (VKw _ v) => Some v
  | _ => None
  end.

Definition args_of (c : extcall) : list value :=
  match c with
  | XCall _ args => args
  | XCallMethod _ _ args => args
  | _ => []
  end.

(** The aperture mask that a call is given, if any. *)
Definition aperture_arg (c : extcall) : option value :=
  kw_arg "aperture_mask" (args_of c).

Definition is_module (L : history) (m : string) (o : value) : bool :=
  match o with
  | VObj k =>
      match nth_error L k with
      | Some (XImport m1, _) => String.eqb m m1
      | _ => false
      end
  | _ => false
  end.

(** Masks of the library: [create_threshold_mask] and the pipeline mask of
    a target pixel file. *)
Definition library_mask_source (c : extcall) : bool :=
  match c with
  | XCallMethod _ m _ => String.eqb m "create_threshold_mask"
  | XGetAttr _ a => String.eqb a "pipeline_mask"
  | _ => false
  end.

(** Arrays of booleans built by the notebook: [np.zeros(..., dtype='bool')]. *)
Definition numpy_bool_source (L : history) (c : extcall) : bool :=
  match c with
  | XCallMethod o m args =>
      is_module L "numpy" o && String.eqb m "zeros" &&
      match kw_arg "dtype" args with
      | Some (VStr d) => String.eqb d "bool"
      | _ => false
      end
  | _ => false
  end.

Inductive origin : Type :=
| By_library
| Built_with_numpy.

Definition mask_keywords : list string := ["pipeline"; "threshold"; "all"].

(** The way a mask was obtained, in the named run with log [L]. *)
Definition origin_of (L : history) (a : value) : option origin :=
  match a with
  | VStr s =>
      if existsb (String.eqb s) mask_keywords then Some By_library else None
  | VObj j =>
      match nth_error L j with
      | Some (c, _) =>
          if library_mask_source c then Some By_library
          else if numpy_bool_source L c then Some Built_with_numpy
          else None
      | None => None
      end
  | _ => None
  end.

Definition mask_has_origin (L : history) (c : extcall) : bool :=
  match aperture_arg c with
  | Some a => match origin_of L a with Some _ => true | None => false end
  | None => true
  end.

(** An item assignment stores True into an array of booleans that the
    notebook built. *)
Definition item_assignment_ok (L : history) (c : extcall) : bool :=
  match c with
  | XSetItem o _ x =>
      match origin_of L o, x with
      | Some Built_with_numpy, VBool true => true
      | _, _ => false
      end
  | _ => true
  end.

(** The call that returned the object [a], in the named run with log [L]. *)
Definition call_at (L : history) (a : value) : option extcall :=
  match a with
  | VObj j => option_map fst (nth_error L j)
  | _ => None
  end.

(** The values given to calls as their aperture mask. *)
Definition given_as_aperture (C : list extcall) : list value :=
  flat_map (fun c => match aperture_arg c with
                     | Some a => [a]
                     | None => []
                     end) C.

(** The images drawn by [imshow], each with the title that the figure has
    when the image is drawn: [t] is the title set since the last
    [figure]. *)
Fixpoint images_from (t : option string) (C : list extcall)
  : list (option string * value) :=
  match C with
  | [] => []
  | XCallMethod _ m args :: C1 =>
      if String.eqb m "figure" then images_from None C1
      else if String.eqb m "title" then
        match args with
        | VStr s :: _ => images_from (Some s) C1
        | _ => images_from t C1
        end
      else if String.eqb m "imshow" then
        match args with
        | a :: _ => (t, a) :: images_from t C1
        | [] => images_from t C1
        end
      else images_from t C1
  | _ :: C1 => images_from t C1
  end.

(** [sub] occurs in [s]. *)
Fixpoint contains (sub s : string) : bool :=
  String.prefix sub s ||
  match s with
  | EmptyString => false
  | String _ s1 => contains sub s1
  end.

(** The images drawn under a title that names an aperture. *)
Definition shown_as_aperture (C : list extcall) : list value :=
  flat_map (fun p => match fst p with
                     | Some s => if contains "APERTURE" s then [snd p] else []
                     | None => []
                     end) (images_from None C).

(** The apertures of a run: the masks given to the library and the
    apertures drawn as images. *)
Definition apertures (L : history) : list value :=
  given_as_aperture (map fst L) ++ shown_as_aperture (map fst L).

(** The value [a] is the data of the extension number [n] of a FITS file
    that the notebook opened with [fits.open] in a [with] block:
    [hdulist[n].data]. *)
Definition extension_read (L : history) (a : value) : option Z :=
  match call_at L a with
  | Some (XGetAttr hdu attr) =>
      match call_at L hdu with
      | Some (XGetItem hdulist (VInt n)) =>
          match call_at L hdulist with
          | Some (XEnter file) =>
              match call_at L file with
              | Some (XCallMethod fits m _) =>
                  match call_at L fits with
                  | Some (XImportFrom pkg x) =>
                      if String.eqb attr "data" && String.eqb m "open" &&
                         String.eqb pkg "astropy.io" && String.eqb x "fits"
                      then Some n else None
                  | _ => None
                  end
              | _ => None
              end
          | _ => None
          end
      | _ => None
      end
  | _ => None
  end.

(** The claim as the specification words it: every aperture comes from the
    mask routines of the library or was built with numpy. *)
Definition every_aperture_has_one_of_two_origins : Prop :=
  forall nb a, In nb notebooks -> In a (apertures (flow nb)) ->
    origin_of (flow nb) a = Some By_library \/
    origin_of (flow nb) a = Some Built_with_numpy.

(** An aperture has one origin: a mask of the library, an array built with
    numpy, or, in the notebook on FITS images, the data of the extension
    number 2 of the file. *)
Definition aperture_origin_ok (nb : notebook) (L : history) (a : value)
  : bool :=
  match origin_of L a, extension_read L a with
  | Some _, None => true
  | None, Some n =>
      Z.eqb n 2 && String.eqb (title nb) (title fits_images)
  | _, _ => false
  end.

(** The pixels drawn under the title 'TPF APERTURE' by the last cell of the
    notebook on FITS images: [imgdata]. *)
Definition imgdata : value := VObj 111.

(** The plot of the crowded field with the mask built in cell 47. *)
Definition plot_custom_mask : extcall :=
  XCallMethod (VObj 74) "plot" [VKw "aperture_mask" (VObj 96)].

(** ** What the notebooks construct and modify themselves *)

Definition modifies (c : extcall) : bool :=
  match c with
  | XSetItem _ _ _ => true
  | _ => false
  end.

(** A call of a function of the numpy module. *)
Definition numpy_call (L : history) (c : extcall) : bool :=
  match c with
  | XCallMethod o _ _ => is_module L "numpy" o
  | _ => false
  end.

(** The claim as the specification words it: the notebooks modify no
    entity and compute no value with numpy themselves. *)
Definition only_reads_and_displays : Prop :=
  forall nb c, In nb notebooks -> In c (map fst (flow nb)) ->
    modifies c = false /\ numpy_call (flow nb) c = false.

(** The first item assignment of cell 47: [custom_mask[-3:,5:] = True]. *)
Definition set_custom_mask : extcall :=
  XSetItem (VObj 96)
    (VTuple [VSlice (Some (-3)%Z) None; VSlice (Some 5%Z) None]) (VBool true).

Definition own_computation_ok (nb : notebook) (c : extcall) : bool :=
  (if modifies c
   then String.eqb (title nb) (title own_light_curves) &&
        item_assignment_ok (flow nb) c
   else true) &&
  (if numpy_call (flow nb) c
   then named ["zeros"; "subtract"; "linspace"] c
   else true) &&
  match c with
  | XInvert _ => String.eqb (title nb) (title transit_signals)
  | _ => true
  end.

(** ** Masking the transits of planet b *)

(** The notebook up to its [n]-th code cell. *)
Definition upto (n : nat) (nb : notebook) : notebook :=
  mkNotebook (title nb) (firstn n (cells nb)).

(** Selection of the rows of a table by a boolean mask, as numpy and
    lightkurve do it for [lc[mask]]: the rows whose mask entry is True, in
    order; the mask must be as long as the table (IndexError otherwise).
    [~mask] negates every entry. *)
Fixpoint select (A : Type) (rows : list A) (mask : list bool) : list A :=
  match rows, mask with
  | x :: rows1, b :: mask1 =>
      if b then x :: select A rows1 mask1 else select A rows1 mask1
  | _, _ => []
  end.

Definition getitem_mask (A : Type) (rows : list A) (mask : list bool)
  : option (list A) :=
  if Nat.eqb (length mask) (length rows) then Some (select A rows mask)
  else None.

Definition invert (mask : list bool) : list bool := map negb mask.

(** * Further properties of the runs *)

(** ** Worlds in which a block raises *)

(** The first FITS file has no extension 1: [hdulist[1]] of cell 21, the
    call number 24 of the notebook, raises, and the exit of the file
    returns None. *)
Definition hdu_missing : world :=
  fun k => if Nat.eqb k 24 then Exc "IndexError"
           else if Nat.eqb k 25 then Ret VNone
           else Ret (VObj k).

(** The same, with a manager whose exit returns True. *)
Definition hdu_missing_and_dropped : world :=
  fun k => if Nat.eqb k 24 then Exc "IndexError"
           else if Nat.eqb k 25 then Ret (VBool true)
           else Ret (VObj k).


(** ** Which calls an object is given to *)

(** The object number [j] occurs in the value [a]. *)
Fixpoint mentions (j : nat) (a : value) : bool :=
  match a with
  | VObj k => Nat.eqb j k
  | VTuple vs => existsb (mentions j) vs
  | VKw _ x => mentions j x
  | _ => false
  end.

(** The values a call is given: receiver, callee, arguments, index. *)
Definition operands (c : extcall) : list value :=
  match c with
  | XGetAttr o _ => [o]
  | XCall f args => f :: args
  | XCallMethod o _ args => o :: args
  | XGetItem o i => [o; i]
  | XSetItem o i x => [o; i; x]
  | XInvert o => [o]
  | XUnpack o _ _ => [o]
  | XEnter o => [o]
  | XExit o _ => [o]
  | XDisplay o => [o]
  | XBool o => [o]
  | _ => []
  end.

Definition uses (j : nat) (c : extcall) : bool :=
  existsb (mentions j) (operands c).

Definition numbered (L : history) : list (nat * (extcall * response)) :=
  combine (seq 0 (length L)) L.

(** No call after the call number [j] is given the object [m]. *)
Definition unused_after (L : history) (j m : nat) : bool :=
  forallb (fun p => negb (uses m (fst p))) (skipn (S j) L).

(** The handles that entering the manager [m] returned before the call
    number [j]. *)
Definition handles_of (L : history) (m j : nat) : list nat :=
  flat_map (fun q =>
              match q with
              | (i, (XEnter (VObj m1), Ret (VObj h))) =>
                  if Nat.eqb m1 m && Nat.ltb i j then [h] else []
              | _ => []
              end) (numbered L).

(** Once a manager is left, neither it nor its handle is used again. *)
Definition left_for_good (L : history) : bool :=
  forallb (fun q =>
             match q with
             | (j, (XExit (VObj m) _, _)) =>
                 unused_after L j m &&
                 forallb (unused_after L j) (handles_of L m j)
             | _ => true
             end) (numbered L).

(** ** The parameters of a transit search *)

(** In the log [L], [p], [t] and [d] are the period, the transit time and
    the duration at maximum power that the periodogram [bls] returned. *)
Definition bls_parameters (L : history) (bls p t d : value) : Prop :=
  In (XGetAttr bls "period_at_max_power", Ret p) L /\
  In (XGetAttr bls "transit_time_at_max_power", Ret t) L /\
  In (XGetAttr bls "duration_at_max_power", Ret d) L.

(** ** The pixel file a mask was made for *)

Definition same_object (a b : value) : bool :=
  match a, b with
  | VObj i, VObj j => Nat.eqb i j
  | _, _ => false
  end.

(** The object [tpf] of which [s] is [tpf[0].shape[1:]]. *)
Definition frame_shape_of (L : history) (s : value) : option value :=
  match call_at L s with
  | Some (XGetItem sh (VSlice (Some lo) None)) =>
      match call_at L sh with
      | Some (XGetAttr f a) =>
          match call_at L f with
          | Some (XGetItem tpf (VInt i)) =>
              if Z.eqb lo 1 && String.eqb a "shape" && Z.eqb i 0
              then Some tpf else None
          | _ => None
          end
      | _ => None
      end
  | _ => None
  end.

(** The pixel file a mask was made for: the receiver of
    [create_threshold_mask], the owner of [pipeline_mask], or the pixel
    file whose frame shape was given to [np.zeros]. *)
Definition mask_base (L : history) (a : value) : option value :=
  match call_at L a with
  | Some (XCallMethod o m args) =>
      if String.eqb m "create_threshold_mask" then Some o
      else if numpy_bool_source L (XCallMethod o m args) then
        match args with
        | s :: _ => frame_shape_of L s
        | [] => None
        end
      else None
  | Some (XGetAttr o a1) =>
      if String.eqb a1 "pipeline_mask" then Some o else None
  | _ => None
  end.

Definition mask_fits (L : history) (c : extcall) : bool :=
  match c with
  | XCallMethod o _ args =>
      match kw_arg "aperture_mask" args with
      | Some (VObj j) =>
          match mask_base L (VObj j) with
          | Some b => same_object b o
          | None => false
          end
      | _ => true
      end
  | _ => true
  end.

(** No call up to the call number [i] is given the object [j] as its
    aperture mask. *)
Definition not_yet_a_mask (L : history) (i j : nat) : bool :=
  forallb (fun p => match aperture_arg (fst p) with
                    | Some a => negb (same_object a (VObj j))
                    | None => true
                    end) (firstn (S i) L).

Definition filled_before_use (L : history) : bool :=
  forallb (fun q =>
             match q with
             | (i, (XSetItem (VObj j) _ _, _)) => not_yet_a_mask L i j
             | _ => true
             end) (numbered L).

(** ** What is downloaded *)

(** What a download fetches: the receiver of lightkurve's [download] and
    [download_all], the first argument of astroquery's
    [download_products]. *)
Definition download_subject (c : extcall) : value :=
  match c with
  | XCallMethod o m args =>
      if String.eqb m "download_products" then hd VNone args else o
  | _ => VNone
  end.

(** Values found by a query of the archive in the run with log [L]: the
    answer of a query, an item of such an answer, or such an answer
    filtered with [filter_products]. *)
Inductive found_by_query (L : history) : value -> Prop :=
| fq_query j c r :
    nth_error L j = Some (c, r) -> is_query c = true ->
    found_by_query L (VObj j)
| fq_item j o i r :
    nth_error L j = Some (XGetItem o i, r) -> found_by_query L o ->
    found_by_query L (VObj j)
| fq_filter j lib x args r :
    nth_error L j = Some (XCallMethod lib "filter_products" (x :: args), r) ->
    found_by_query L x ->
    found_by_query L (VObj j).

Fixpoint found_by_queryb (fuel : nat) (L : history) (a : value) : bool :=
  match fuel with
  | 0 => false
  | S n =>
      match call_at L a with
      | Some c =>
          is_query c ||
          match c with
          | XGetItem o _ => found_by_queryb n L o
          | XCallMethod _ m (x :: _) =>
              String.eqb m "filter_products" && found_by_queryb n L x
          | _ => false
          end
      | None => false
      end
  end.

(** ** The file that is opened *)

Definition ends_with (s suffix : string) : bool :=
  Nat.leb (String.length suffix) (String.length s) &&
  String.eqb
    (String.substring (String.length s - String.length suffix)
       (String.length suffix) s)
    suffix.

(** The call number [i] of [L] is a [filter_products] whose [extension]
    is the end of [path]. *)
Definition filters_for (L : history) (path : string) (i : nat) : bool :=
  match nth_error L i with
  | Some (XCallMethod _ m args, _) =>
      String.eqb m "filter_products" &&
      match kw_arg "extension" args with
      | Some (VStr e) => ends_with path e
      | _ => false
      end
  | _ => false
  end.

(** Before the call number [k], the products that a filter for [path]
    returned were downloaded. *)
Definition downloaded_before (L : history) (path : string) (k : nat) : bool :=
  existsb (fun q =>
             match q with
             | (d, (XCallMethod _ m (VObj i :: _), _)) =>
                 String.eqb m "download_products" && Nat.ltb d k &&
                 Nat.ltb i d && filters_for L path i
             | _ => false
             end) (numbered L).

Definition opens_what_was_downloaded (L : history) : bool :=
  forallb (fun q =>
             match q with
             | (k, (XCallMethod _ m [VStr path], _)) =>
                 implb (existsb (String.eqb m) ["open"; "info"])
                       (downloaded_before L path k)
             | _ => true
             end) (numbered L).

(** ** The axes that are drawn on *)

(** The object [a] is an item of the array of axes that [subplots]
    returned as the second component of its value. *)
Definition subplot_item (L : history) (a : value) : bool :=
  match call_at L a with
  | Some (XGetItem u _) =>
      match call_at L u with
      | Some (XUnpack s 2 1) =>
          match call_at L s with
          | Some (XCallMethod _ m _) => String.eqb m "subplots"
          | _ => false
          end
      | _ => false
      end
  | _ => false
  end.

(** The object [a] is what a drawing call returned. *)
Definition drawn_axes (L : history) (a : value) : bool :=
  match call_at L a with
  | Some c => is_plot c
  | None => false
  end.

Definition axes_exist (L : history) (c : extcall) : bool :=
  match kw_arg "ax" (args_of c) with
  | Some a => drawn_axes L a || subplot_item L a
  | None => true
  end.


(** * Properties of every program of the fragment *)

Set Implicit Arguments.

(** ** A property closed under the operations of the semantics holds of
    every expression, statement, cell and notebook *)

Section Fundamental.
Variables P Q : forall A : Type, M A -> Prop.
Hypothesis P_ret : forall A (a : A), P (ret a).
Hypothesis P_bind : forall A B (m : M A) (f : A -> M B),
  P m -> (forall a, P (f a)) -> P (bind m f).
Hypothesis P_ext : forall c, plain c = true -> P (ext c).
Hypothesis P_display : forall v, P (display v).
Hypothesis P_lookup : forall x, P (lookup x).
Hypothesis P_assign : forall x v, P (assign x v).
Hypothesis P_Q : forall A (m : M A), P m -> Q m.
Hypothesis Q_bind : forall A B (m : M A) (f : A -> M B),
  Q m -> (forall a, Q (f a)) -> Q (bind m f).
Hypothesis Q_with : forall (me : M value) x (body : M unit),
  P me -> P body ->
  Q (mgr <- me ;; h <- ext (XEnter mgr) ;; assign x h ;;; cleanup body mgr).

Lemma P_mapM A B (f : A -> M B) (l : list A) :
  Forall (fun a => P (f a)) l -> P (mapM f l).
Proof.
  induction 1 as [|a l Ha _ IH]; simpl.
  - apply P_ret.
  - apply P_bind; [exact Ha|]. intros b.
    apply P_bind; [exact IH|]. intros bs. apply P_ret.
Qed.

Lemma P_seqM A (f : A -> M unit) (l : list A) :
  (forall a, P (f a)) -> P (seqM f l).
Proof.
  intros Hf. induction l as [|a l IH]; simpl.
  - apply P_ret.
  - apply P_bind; [apply Hf|]. intros _. exact IH.
Qed.

Lemma Q_seqM A (f : A -> M unit) (l : list A) :
  (forall a, Q (f a)) -> Q (seqM f l).
Proof.
  intros Hf. induction l as [|a l IH]; simpl.
  - apply P_Q, P_ret.
  - apply Q_bind; [apply Hf|]. intros _. exact IH.
Qed.

(** The receiver of a method call is evaluated on its own: the statement
    carries it along. *)
Lemma P_eval_receiver (e : expr) :
  P (eval e) /\ match e with Attr r _ => P (eval r) | _ => True end.
Proof.
  induction e
    as [x|s|z|l|b|es IH|lo hi|e a IH|e i IHe IHi|e IH|f args IHf IH|k e IH]
    using expr_rect_nested; simpl; split; try exact I;
    try apply P_ret; try apply P_lookup.
  - apply P_bind; [|intros; apply P_ret].
    apply P_mapM. eapply Forall_impl; [|exact IH]. intros a [Ha _]; exact Ha.
  - apply P_bind; [apply IH|]. intros; now apply P_ext.
  - apply IH.
  - apply P_bind; [apply IHe|]. intros.
    apply P_bind; [apply IHi|]. intros. now apply P_ext.
  - apply P_bind; [apply IH|]. intros; now apply P_ext.
  - assert (Hargs : P (mapM eval args)).
    { apply P_mapM. eapply Forall_impl; [|exact IH].
      intros a [Ha _]; exact Ha. }
    destruct IHf as [Hf Hr].
    destruct f;
      try (apply P_bind; [exact Hf|]; intros;
           apply P_bind; [exact Hargs|]; intros; now apply P_ext).
    apply P_bind; [exact Hr|]. intros.
    apply P_bind; [now apply P_ext|]. intros.
    apply P_bind; [exact Hargs|]. intros. now apply P_ext.
  - apply P_bind; [apply IH|]. intros; apply P_ret.
Qed.

Lemma P_eval (e : expr) : P (eval e).
Proof. apply P_eval_receiver. Qed.

Lemma P_exec_simple (s : simple) : P (exec_simple s).
Proof.
  destruct s; simpl.
  - apply P_bind; [now apply P_ext|]. intros; apply P_assign.
  - apply P_bind; [now apply P_ext|]. intros; apply P_assign.
  - apply P_bind; [now apply P_ext|]. intros; apply P_ret.
  - apply P_bind; [apply P_eval|]. intros; apply P_assign.
  - apply P_bind; [apply P_eval|]. intros o.
    apply P_bind; [|intros vs; apply P_seqM; intros xv; apply P_assign].
    apply P_mapM. apply Forall_forall. intros i _. now apply P_ext.
  - apply P_bind; [apply P_eval|]. intros.
    apply P_bind; [apply P_eval|]. intros.
    apply P_bind; [apply P_eval|]. intros.
    apply P_bind; [now apply P_ext|]. intros; apply P_ret.
  - apply P_bind; [apply P_eval|]. intros; apply P_ret.
  - apply P_bind; [apply P_eval|]. intros. apply P_display.
Qed.

Lemma Q_exec_stmt (s : stmt) : Q (exec_stmt s).
Proof.
  destruct s as [s|e x body]; simpl.
  - apply P_Q, P_exec_simple.
  - apply Q_with; [apply P_eval|]. apply P_seqM. apply P_exec_simple.
Qed.

Lemma Q_run (nb : notebook) : Q (run nb).
Proof.
  unfold run. apply Q_seqM. intros c. unfold exec_cell.
  apply Q_seqM. apply Q_exec_stmt.
Qed.
End Fundamental.

(** ** The log only grows, and a run depends on the answers only *)

Lemma extends_refl st : extends st st.
Proof. exists []. now rewrite app_nil_r. Qed.

Lemma extends_trans s1 s2 s3 : extends s1 s2 -> extends s2 s3 -> extends s1 s3.
Proof.
  intros [d1 H1] [d2 H2]. exists (d1 ++ d2). now rewrite H2, H1, app_assoc.
Qed.

Lemma extends_pos st stf : extends st stf -> pos st <= pos stf.
Proof. intros [d H]. unfold pos. rewrite H, length_app. lia. Qed.

Lemma extends_snoc st (c : extcall) (r : response) g1 :
  extends st (mkState g1 (log st ++ [(c, r)])).
Proof. eexists. reflexivity. Qed.

Lemma pos_calls st : length (calls st) = pos st.
Proof. unfold calls, pos. apply length_map. Qed.

Lemma length_ops st : length (ops st) = pos st.
Proof. unfold ops. rewrite length_map. apply pos_calls. Qed.

Lemma extends_calls st stf :
  extends st stf -> exists d, calls stf = calls st ++ d.
Proof.
  intros [d H]. exists (map fst d). unfold calls. now rewrite H, map_app.
Qed.

Lemma extends_firstn st stf n :
  extends st stf -> n <= pos st -> firstn n (calls stf) = firstn n (calls st).
Proof.
  intros [d H] Hn. unfold calls. rewrite H, map_app, firstn_app.
  rewrite length_map. fold (pos st).
  replace (n - pos st) with 0 by lia. simpl. now rewrite app_nil_r.
Qed.

Lemma snd_ext c w st :
  snd (ext c w st) = mkState (globals st) (log st ++ [(c, w (pos st))]).
Proof. unfold ext. destruct (w (pos st)); reflexivity. Qed.

Lemma ext_same c w1 w2 st :
  w1 (pos st) = w2 (pos st) -> ext c w1 st = ext c w2 st.
Proof. intros E. unfold ext. now rewrite E. Qed.

Lemma ext_ret c w st v :
  w (pos st) = Ret v ->
  ext c w st = (Ok v, mkState (globals st) (log st ++ [(c, Ret v)])).
Proof. intros H. unfold ext. now rewrite H. Qed.

Lemma ext_exc c w st e :
  w (pos st) = Exc e ->
  ext c w st = (Raised e, mkState (globals st) (log st ++ [(c, Exc e)])).
Proof. intros H. unfold ext. now rewrite H. Qed.

Lemma ext_ok c w st v st1 :
  ext c w st = (Ok v, st1) ->
  w (pos st) = Ret v /\
  st1 = mkState (globals st) (log st ++ [(c, Ret v)]).
Proof.
  unfold ext. destruct (w (pos st)); intros H; inversion H. auto.
Qed.

Lemma snd_bind A B (m : M A) (f : A -> M B) w st :
  snd (bind m f w st) =
  match m w st with
  | (Ok a, st1) => snd (f a w st1)
  | (_, st1) => st1
  end.
Proof. unfold bind. destruct (m w st) as [[a|e|x] st1]; reflexivity. Qed.

Lemma calls_snoc g l c r :
  calls (mkState g (l ++ [(c, r)])) = map fst l ++ [c].
Proof. unfold calls. simpl. now rewrite map_app. Qed.

Lemma pos_snoc g l (c : extcall) (r : response) :
  pos (mkState g (l ++ [(c, r)])) = S (length l).
Proof. unfold pos. simpl. rewrite length_app. simpl. lia. Qed.

Lemma steady_ret A (a : A) : steady (ret a).
Proof. split; [intros; apply extends_refl | reflexivity]. Qed.

Lemma steady_finish A (r : outcome A) : steady (finish r).
Proof. split; [intros; apply extends_refl | reflexivity]. Qed.

Lemma steady_raise A e : steady (@raise A e).
Proof. split; [intros; apply extends_refl | reflexivity]. Qed.

Lemma steady_lookup x : steady (lookup x).
Proof.
  split; [|reflexivity]. intros w st. unfold lookup.
  destruct (assoc x (globals st)); [|destruct (existsb _ _)];
    apply extends_refl.
Qed.

Lemma steady_assign x v : steady (assign x v).
Proof.
  split; [|reflexivity]. intros w st. exists []. simpl. now rewrite app_nil_r.
Qed.

Lemma steady_ext c : steady (ext c).
Proof.
  split.
  - intros w st. rewrite snd_ext. apply extends_snoc.
  - intros w1 w2 st E. now apply ext_same.
Qed.

Lemma steady_display v : steady (display v).
Proof.
  split.
  - intros w st. apply extends_snoc.
  - intros w1 w2 st E. unfold display. now rewrite E.
Qed.

Lemma steady_bind_grows A B (m : M A) (f : A -> M B) :
  (forall w st, extends st (snd (m w st))) ->
  (forall a w st, extends st (snd (f a w st))) ->
  forall w st, extends st (snd (bind m f w st)).
Proof.
  intros Xm Xf w st. rewrite snd_bind. specialize (Xm w st).
  destruct (m w st) as [[a|e|x] st1]; simpl in *; auto.
  eapply extends_trans; [exact Xm | apply Xf].
Qed.

Lemma steady_bind A B (m : M A) (f : A -> M B) :
  steady m -> (forall a, steady (f a)) -> steady (bind m f).
Proof.
  intros [Xm Em] Hf. split.
  - intros w st. rewrite snd_bind. specialize (Xm w st).
    destruct (m w st) as [[a|e|x] st1]; simpl in *; auto.
    eapply extends_trans; [exact Xm | apply (Hf a)].
  - intros w1 w2 st E. unfold bind. rewrite (Em w1 w2 st E).
    destruct (m w2 st) as [[a|e|x] st1]; auto. now apply (Hf a).
Qed.

Lemma steady_truth v : steady (truth v).
Proof.
  unfold truth. destruct (truthy v); [apply steady_ret|].
  apply steady_bind; [apply steady_ext|].
  intros [| | | | | | | | |]; try apply steady_raise. apply steady_ret.
Qed.

Lemma steady_leave mgr r : steady (leave mgr r).
Proof.
  assert (H : steady (v <- ext (XExit mgr true) ;; b <- truth v ;;
                      if b then ret tt else finish r)).
  { apply steady_bind; [apply steady_ext|]. intros v.
    apply steady_bind; [apply steady_truth|].
    intros [|]; [apply steady_ret | apply steady_finish]. }
  destruct r; simpl; try exact H.
  apply steady_bind; [apply steady_ext|]. intros; apply steady_ret.
Qed.

Lemma steady_cleanup (body : M unit) mgr :
  steady body -> steady (cleanup body mgr).
Proof.
  intros [Xb Eb]. split.
  - intros w st. unfold cleanup. specialize (Xb w st).
    destruct (body w st) as [r st1]. simpl in Xb.
    eapply extends_trans; [exact Xb | apply steady_leave].
  - intros w1 w2 st E. unfold cleanup. rewrite (Eb w1 w2 st E).
    destruct (body w2 st) as [r st1]. now apply steady_leave.
Qed.

Lemma run_steady (nb : notebook) : steady (run nb).
Proof.
  apply (Q_run steady steady); intros; auto.
  - apply steady_ret.
  - now apply steady_bind.
  - apply steady_ext.
  - apply steady_display.
  - apply steady_lookup.
  - apply steady_assign.
  - now apply steady_bind.
  - apply steady_bind; [assumption|]. intros mgr.
    apply steady_bind; [apply steady_ext|]. intros h.
    apply steady_bind; [apply steady_assign|]. intros _.
    now apply steady_cleanup.
Qed.

(** ** Code without blocks stops at the first call that raises *)

Lemma displayed_snoc P o : displayed (P ++ [o]) (length P) = is_display o.
Proof.
  unfold displayed. rewrite nth_error_app2 by lia.
  now rewrite Nat.sub_diag.
Qed.

Lemma displayed_app P P1 k :
  k < length P -> displayed (P ++ P1) k = displayed P k.
Proof. intros H. unfold displayed. now rewrite nth_error_app1. Qed.

Lemma ops_app st stf d :
  log stf = log st ++ d -> ops stf = ops st ++ map op_of (map fst d).
Proof. intros H. unfold ops, calls. now rewrite H, !map_app. Qed.

Lemma displayed_extends st stf k :
  extends st stf -> k < pos st ->
  displayed (ops stf) k = displayed (ops st) k.
Proof.
  intros [d H] Hk. rewrite (@ops_app st stf d H).
  apply displayed_app. now rewrite length_ops.
Qed.

Lemma firstn_calls_snoc st c r g :
  firstn (S (pos st)) (calls (mkState g (log st ++ [(c, r)])))
  = calls st ++ [c].
Proof.
  rewrite calls_snoc. fold (calls st). apply firstn_all2.
  rewrite length_app, pos_calls. simpl. lia.
Qed.

Lemma strict_ret A (a : A) : strict (ret a).
Proof.
  split; [intros; apply extends_refl|].
  intros w wr st a0 stf H. unfold ret in H. injection H as <- <-.
  split; [exists []; now rewrite app_nil_r|]. split; [reflexivity|].
  intros; lia.
Qed.

Lemma strict_lookup x : strict (lookup x).
Proof.
  split; [apply steady_lookup|].
  intros w wr st a stf H. unfold lookup in *.
  destruct (assoc x (globals st)); [|destruct (existsb _ _)];
    try discriminate; injection H as <- <-;
    (split; [exists []; now rewrite app_nil_r|]; split; [reflexivity|];
     intros; lia).
Qed.

Lemma strict_assign x v : strict (assign x v).
Proof.
  split; [apply steady_assign|].
  intros w wr st a stf H. unfold assign in *. injection H as <- <-.
  split; [exists []; simpl; now rewrite app_nil_r|].
  split; [reflexivity|]. unfold pos; simpl. intros; lia.
Qed.

Lemma strict_ext c : plain c = true -> strict (ext c).
Proof.
  intros Hc. split; [apply steady_ext|].
  intros w wr st a stf H. apply ext_ok in H. destruct H as [Hr ->].
  split; [eexists; split; [reflexivity|]; simpl; now rewrite Hc|].
  rewrite pos_snoc. fold (pos st). split.
  - intros R. apply ext_ret. rewrite R; [exact Hr | lia].
  - intros f e Hf _ He _. assert (f = pos st) as -> by lia.
    eexists. split; [apply ext_exc, He|].
    rewrite firstn_calls_snoc. apply calls_snoc.
Qed.

Lemma strict_display v : strict (display v).
Proof.
  split; [apply steady_display|].
  intros w wr st a stf H. unfold display in H. injection H as <- <-.
  split; [eexists; split; [reflexivity|]; reflexivity|].
  rewrite pos_snoc. fold (pos st). split.
  - intros R. unfold display. rewrite R; [reflexivity | lia].
  - intros f e Hf _ _ Hd. assert (f = pos st) as -> by lia.
    unfold ops in Hd. rewrite calls_snoc, map_app in Hd. simpl in Hd.
    rewrite <- (length_ops st) in Hd. unfold ops, calls in Hd.
    rewrite displayed_snoc in Hd. discriminate.
Qed.

Lemma strict_bind A B (m : M A) (f : A -> M B) :
  strict m -> (forall a, strict (f a)) -> strict (bind m f).
Proof.
  intros [Gm Hm] Hf. split.
  { apply steady_bind_grows; [exact Gm | intros a; apply (Hf a)]. }
  intros w wr st b stf H. unfold bind in H.
  destruct (m wr st) as [[a| |] st1] eqn:E1; try discriminate.
  destruct (Hm w _ _ _ _ E1) as ((d1 & L1 & P1) & O1 & F1).
  destruct (proj2 (Hf a) w _ _ _ _ H) as ((d2 & L2 & P2) & O2 & F2).
  assert (X1 : extends st st1) by (exists d1; exact L1).
  assert (X2 : extends st1 stf) by (exists d2; exact L2).
  pose proof (extends_pos X1). pose proof (extends_pos X2).
  split; [|split].
  - exists (d1 ++ d2). split; [now rewrite L2, L1, app_assoc|].
    now rewrite map_app, forallb_app, P1, P2.
  - intros R. unfold bind. rewrite O1; [apply O2|]; intros k Hk; apply R; lia.
  - intros f0 e Hf0 R He Hd. destruct (Nat.lt_ge_cases f0 (pos st1)).
    + destruct (F1 f0 e) as (st' & Em & Ec); auto; [lia| |].
      { rewrite <- Hd. symmetry. now apply displayed_extends. }
      exists st'. unfold bind. rewrite Em. split; [reflexivity|].
      rewrite Ec. symmetry. apply extends_firstn; [exact X2 | lia].
    + unfold bind. rewrite O1 by (intros k Hk; apply R; lia).
      apply F2; [lia | | exact He | exact Hd]. intros k Hk; apply R; lia.
Qed.

(** ** Statements stop at the first call that raises, after leaving the
    block they are in *)

Lemma scan_app P1 : forall b P2,
  scan b (P1 ++ P2)
  = match scan b P1 with Some b1 => scan b1 P2 | None => None end.
Proof.
  induction P1 as [|o P1 IH]; intros b P2; simpl; [reflexivity|].
  destruct o; try apply IH; destruct b; try reflexivity; apply IH.
Qed.

Lemma scan_plain P : forall b,
  forallb (fun o => negb (bracket o)) P = true -> scan b P = Some b.
Proof.
  induction P as [|o P IH]; intros b H; simpl in *; [reflexivity|].
  apply andb_prop in H. destruct H as [Ho HP].
  destruct o; simpl in Ho; try discriminate; now apply IH.
Qed.

Lemma plain_ops (C : list extcall) :
  forallb plain C = true ->
  forallb (fun o => negb (bracket o)) (map op_of C) = true.
Proof.
  induction C as [|c C IH]; simpl; [reflexivity|]. intros H.
  apply andb_prop in H. destruct H as [Hc HC]. unfold plain in Hc.
  now rewrite Hc, IH.
Qed.

Lemma forallb_firstn (A : Type) (p : A -> bool) (l : list A) n :
  forallb p l = true -> forallb p (firstn n l) = true.
Proof.
  intros H. rewrite <- (firstn_skipn n l), forallb_app in H.
  now apply andb_prop in H.
Qed.

(** Where a position is, relative to a prefix of known shape. *)
Lemma in_body_shift (A B : list op) k b :
  scan false A = Some b ->
  in_body (A ++ B) (length A + k)
  = match scan b (firstn k B), nth_error B k with
    | Some true, Some o => negb (bracket o)
    | _, _ => false
    end.
Proof.
  intros HA. unfold in_body.
  rewrite firstn_app, firstn_all2 by lia.
  replace (length A + k - length A) with k by lia.
  rewrite scan_app, HA. rewrite nth_error_app2 by lia.
  now replace (length A + k - length A) with k by lia.
Qed.

Lemma in_body_prefix (P P1 : list op) f :
  f < length P -> in_body (P ++ P1) f = in_body P f.
Proof.
  intros H. unfold in_body.
  rewrite firstn_app. replace (f - length P) with 0 by lia.
  simpl. rewrite app_nil_r. now rewrite nth_error_app1.
Qed.

Lemma manager_prefix (C C1 : list extcall) f :
  f <= length C -> manager (C ++ C1) f = manager C f.
Proof.
  intros H. unfold manager.
  rewrite firstn_app. replace (f - length C) with 0 by lia.
  simpl. now rewrite app_nil_r.
Qed.

Lemma find_skip (A : Type) (p : A -> bool) (l1 l2 : list A) :
  forallb (fun a => negb (p a)) l1 = true -> find p (l1 ++ l2) = find p l2.
Proof.
  induction l1 as [|a l1 IH]; simpl; [reflexivity|]. intros H.
  apply andb_prop in H. destruct H as [Ha Hl].
  apply negb_true_iff in Ha. rewrite Ha. now apply IH.
Qed.

Lemma plain_not_enter (C : list extcall) :
  forallb plain C = true -> forallb (fun c => negb (is_enter c)) C = true.
Proof.
  induction C as [|c C IH]; simpl; [reflexivity|]. intros H.
  apply andb_prop in H. destruct H as [Hc HC]. rewrite (IH HC).
  destruct c; try reflexivity. discriminate.
Qed.

Lemma manager_in_block (A D : list extcall) mgr k rest :
  forallb plain D = true -> k <= length D ->
  manager ((A ++ [XEnter mgr]) ++ D ++ rest) (length (A ++ [XEnter mgr]) + k)
  = mgr.
Proof.
  intros HD Hk. unfold manager.
  rewrite firstn_app, firstn_all2 by lia.
  replace (length (A ++ [XEnter mgr]) + k - length (A ++ [XEnter mgr]))
    with k by lia.
  rewrite firstn_app. replace (k - length D) with 0 by lia. simpl.
  rewrite app_nil_r, rev_app_distr, rev_app_distr. simpl.
  rewrite find_skip; [reflexivity|].
  rewrite forallb_forall. intros c Hc. apply in_rev in Hc.
  assert (H := plain_not_enter _ (forallb_firstn plain D k HD)).
  rewrite forallb_forall in H. now apply H.
Qed.

Lemma bind_raised A B (m : M A) (f : A -> M B) w st e :
  fst (m w st) = Raised e -> bind m f w st = (Raised e, snd (m w st)).
Proof.
  unfold bind. destruct (m w st) as [[a|e1|x] s]; simpl; intros H;
    try discriminate. now injection H as ->.
Qed.

Lemma bind_extends A B (m : M A) (f : A -> M B) w st :
  (forall a w st, extends st (snd (f a w st))) ->
  extends (snd (m w st)) (snd (bind m f w st)).
Proof.
  intros Xf. rewrite snd_bind.
  destruct (m w st) as [[a|e|x] s]; simpl; try apply extends_refl. apply Xf.
Qed.

Lemma calm_prefix P P1 : calm (P ++ P1) = true -> calm P = true.
Proof. unfold calm. rewrite forallb_app. intros H. now apply andb_prop in H. Qed.

Lemma calm_extends st stf :
  extends st stf -> calm (ops stf) = true -> calm (ops st) = true.
Proof.
  intros [d H]. rewrite (@ops_app st stf d H). apply calm_prefix.
Qed.

Lemma ends_at_bind A B (m : M A) (f : A -> M B) w st st1 stf f0 e :
  (forall a w st, extends st (snd (f a w st))) ->
  extends st1 stf -> f0 < pos st1 ->
  ends_at (m w st) w (calls st1) f0 e ->
  ends_at (bind m f w st) w (calls stf) f0 e.
Proof.
  intros Xf X Hf0 E. destruct (extends_calls X) as [d Hd].
  unfold ends_at in *. rewrite Hd, map_app.
  rewrite in_body_prefix by (rewrite length_map, pos_calls; exact Hf0).
  rewrite manager_prefix by (rewrite pos_calls; lia).
  assert (Hfn : firstn (S f0) (calls st1 ++ d) = firstn (S f0) (calls st1)).
  { rewrite firstn_app. rewrite pos_calls.
    replace (S f0 - pos st1) with 0 by lia. simpl. apply app_nil_r. }
  rewrite Hfn.
  destruct (in_body (map op_of (calls st1)) f0).
  - destruct (exit_verdict w (S f0)).
    + destruct E as [Er Ec]. rewrite (@bind_raised _ _ m f w st _ Er). auto.
    + destruct E as [Er Ec]. rewrite (@bind_raised _ _ m f w st _ Er). auto.
    + destruct E as [d0 Ec].
      destruct (extends_calls (bind_extends m f w st Xf)) as [d1 H1].
      exists (d0 ++ d1). rewrite H1, Ec. now rewrite <- !app_assoc.
  - destruct E as [Er Ec]. rewrite (@bind_raised _ _ m f w st _ Er). auto.
Qed.

Lemma strict_lenient A (m : M A) : strict m -> lenient m.
Proof.
  intros [Gm Hm]. split; [exact Gm|].
  intros w wr st a stf Out H _.
  destruct (Hm w _ _ _ _ H) as ((d & L & Pd) & O & F).
  assert (Ho : ops stf = ops st ++ map op_of (map fst d))
    by (apply ops_app; exact L).
  split; [exists d; exact L|]. split; [|split; [exact O|]].
  - unfold outside in *. rewrite Ho, scan_app, Out.
    apply scan_plain, plain_ops, Pd.
  - intros f e Hf R He Hd. destruct (F f e Hf R He Hd) as (st' & Em & Ec).
    unfold ends_at. fold (ops stf). rewrite Ho.
    replace f with (length (ops st) + (f - pos st))
      by (rewrite length_ops; lia).
    rewrite (@in_body_shift (ops st) _ (f - pos st) false Out).
    rewrite scan_plain by (apply forallb_firstn, plain_ops, Pd).
    replace (length (ops st) + (f - pos st)) with f
      by (rewrite length_ops; lia).
    rewrite Em. auto.
Qed.

Lemma lenient_bind A B (m : M A) (f : A -> M B) :
  lenient m -> (forall a, lenient (f a)) -> lenient (bind m f).
Proof.
  intros [Gm Hm] Hf. split.
  { apply steady_bind_grows; [exact Gm | intros a; apply (Hf a)]. }
  intros w wr st b stf Out H Calm. unfold bind in H.
  destruct (m wr st) as [[a| |] st1] eqn:E1; try discriminate.
  assert (X2 : extends st1 stf).
  { pose proof (proj1 (Hf a) wr st1) as X. now rewrite H in X. }
  destruct (Hm w _ _ _ _ Out E1 (calm_extends X2 Calm))
    as (X1 & Out1 & O1 & F1).
  destruct (proj2 (Hf a) w _ _ _ _ Out1 H Calm) as (_ & Out2 & O2 & F2).
  pose proof (extends_pos X1). pose proof (extends_pos X2).
  split; [eapply extends_trans; eauto|]. split; [exact Out2|]. split.
  - intros R. unfold bind. rewrite O1; [apply O2|]; intros k Hk; apply R; lia.
  - intros f0 e Hf0 R He Hd. destruct (Nat.lt_ge_cases f0 (pos st1)).
    + apply ends_at_bind with (st1 := st1); auto.
      * intros a0. apply (Hf a0).
      * apply F1; auto; [lia|].
        rewrite <- Hd. symmetry. now apply displayed_extends.
    + unfold bind. rewrite O1 by (intros k Hk; apply R; lia).
      apply F2; [lia | | exact He | exact Hd]. intros k Hk; apply R; lia.
Qed.

Lemma calm_raising_exit st mgr r g :
  calm (ops (mkState g (log st ++ [(XExit mgr true, r)]))) = false.
Proof.
  unfold ops. rewrite calls_snoc, map_app. unfold calm.
  rewrite forallb_app. simpl. apply andb_false_r.
Qed.

Lemma steady_after_exit (r : outcome unit) v :
  steady (b <- truth v ;; if b then ret tt else finish r).
Proof.
  apply steady_bind; [apply steady_truth|].
  intros [|]; [apply steady_ret | apply steady_finish].
Qed.

(** A block that is left without an exception, in a calm run, was left by
    the exit of its manager after a body that ended normally. *)
Lemma leave_complete mgr r w s3 stf :
  leave mgr r w s3 = (Ok tt, stf) -> calm (ops stf) = true ->
  exists u v, r = Ok u /\ w (pos s3) = Ret v /\
    stf = mkState (globals s3) (log s3 ++ [(XExit mgr false, Ret v)]).
Proof.
  intros H Calm.
  assert (No : forall r1 : outcome unit,
             (v <- ext (XExit mgr true) ;; b <- truth v ;;
              if b then ret tt else finish r1) w s3 = (Ok tt, stf) -> False).
  { intros r1 H1.
    pose proof (@bind_extends _ _ (ext (XExit mgr true))
                  (fun v => b <- truth v ;; if b then ret tt else finish r1)
                  w s3 (fun v => proj1 (steady_after_exit r1 v))) as X.
    rewrite H1, snd_ext in X. simpl in X.
    apply calm_extends in X; [|exact Calm].
    rewrite calm_raising_exit in X. discriminate. }
  destruct r as [u|e|x]; simpl in H; try (exfalso; eapply No; exact H).
  unfold bind in H.
  destruct (ext (XExit mgr false) w s3) as [[v| |] s] eqn:E;
    try discriminate.
  apply ext_ok in E. destruct E as [Hr ->]. unfold ret in H.
  injection H as <-. eauto.
Qed.

(** Leaving a block after a body that raised. *)
Lemma leave_raised mgr (r : outcome unit) w st' :
  (forall u, r <> Ok u) ->
  let res := leave mgr r w st' in
  calls (snd res) = calls st' ++ exit_calls mgr w (pos st') /\
  match exit_verdict w (pos st') with
  | Goes_on => fst res = r
  | Replaced e2 => fst res = Raised e2
  | Dropped => fst res = Ok tt
  end.
Proof.
  intros Hr.
  assert (E : leave mgr r w st'
              = (v <- ext (XExit mgr true) ;; b <- truth v ;;
                 if b then ret tt else finish r) w st').
  { destruct r as [u| |]; [now elim (Hr u) | reflexivity | reflexivity]. }
  simpl. rewrite E. clear E. unfold exit_verdict, exit_calls, bind, ext.
  destruct (w (pos st')) as [v|e2] eqn:E1; simpl.
  - unfold truth. destruct (truthy v) as [[|]|] eqn:Et; simpl.
    + rewrite calls_snoc. auto.
    + rewrite calls_snoc. auto.
    + unfold bind, ext. rewrite pos_snoc. fold (pos st').
      destruct (w (S (pos st'))) as [v1|e3] eqn:E2; simpl.
      * destruct v1 as [|[|]| | | | | | | |]; simpl;
          unfold calls; simpl; rewrite !map_app; simpl;
          rewrite <- app_assoc; auto.
      * unfold calls; simpl. rewrite !map_app. simpl.
        rewrite <- app_assoc. auto.
  - rewrite calls_snoc. auto.
Qed.

Lemma cleanup_grows (body : M unit) mgr :
  (forall w st, extends st (snd (body w st))) ->
  forall w st, extends st (snd (cleanup body mgr w st)).
Proof.
  intros Xb w st. unfold cleanup. specialize (Xb w st).
  destruct (body w st) as [r st1]. simpl in Xb.
  eapply extends_trans; [exact Xb | apply steady_leave].
Qed.

Lemma with_enters (me : M value) x (body : M unit) w st mgr s1 h :
  me w st = (Ok mgr, s1) -> w (pos s1) = Ret h ->
  (mgr <- me ;; h <- ext (XEnter mgr) ;; assign x h ;;; cleanup body mgr) w st
  = cleanup body mgr w (entered x h mgr s1).
Proof.
  intros E1 E2. unfold bind at 1. rewrite E1.
  unfold bind at 1. rewrite (@ext_ret (XEnter mgr) w s1 h E2). reflexivity.
Qed.

Lemma with_enter_raises (me : M value) x (body : M unit) w st mgr s1 e :
  me w st = (Ok mgr, s1) -> w (pos s1) = Exc e ->
  (mgr <- me ;; h <- ext (XEnter mgr) ;; assign x h ;;; cleanup body mgr) w st
  = (Raised e, mkState (globals s1) (log s1 ++ [(XEnter mgr, Exc e)])).
Proof.
  intros E1 E2. unfold bind at 1. rewrite E1.
  unfold bind at 1. now rewrite (@ext_exc (XEnter mgr) w s1 e E2).
Qed.

Lemma firstn_exact (A : Type) (l l1 : list A) n :
  n = length l -> firstn n (l ++ l1) = l.
Proof.
  intros ->. rewrite firstn_app, Nat.sub_diag, firstn_all. simpl.
  apply app_nil_r.
Qed.

Lemma lenient_with (me : M value) x (body : M unit) :
  strict me -> strict body ->
  lenient (mgr <- me ;; h <- ext (XEnter mgr) ;; assign x h ;;;
           cleanup body mgr).
Proof.
  intros Sme Sb. pose proof Sme as [Gme Hme]. pose proof Sb as [Gb Hb]. split.
  { apply steady_bind_grows; [exact Gme|]. intros mgr.
    apply steady_bind_grows; [apply steady_ext|]. intros h.
    apply steady_bind_grows; [apply steady_assign|]. intros _.
    apply cleanup_grows, Gb. }
  intros w wr st a stf Out H Calm. destruct a.
  assert (H0 := H). unfold bind at 1 in H0.
  destruct (me wr st) as [[mgr| |] s1] eqn:E1; try discriminate.
  unfold bind at 1 in H0.
  destruct (ext (XEnter mgr) wr s1) as [[h| |] s2] eqn:E2; try discriminate.
  apply ext_ok in E2. destruct E2 as [Hr2 _]. clear H0.
  rewrite (@with_enters me x body wr st mgr s1 h E1 Hr2) in H.
  unfold cleanup in H.
  destruct (body wr (entered x h mgr s1)) as [rb s3] eqn:E3.
  destruct (@leave_complete mgr rb wr _ stf H Calm) as (u & v & -> & Hr3 & Estf).
  destruct u. clear H.
  destruct (Hme w _ _ _ _ E1) as ((d1 & L1 & P1) & O1 & F1).
  destruct (Hb w _ _ _ _ E3) as ((d3 & L3 & P3) & O3 & F3).
  assert (p2 : pos (entered x h mgr s1) = S (pos s1))
    by (unfold entered; apply pos_snoc).
  assert (p1 : pos s1 = pos st + length d1)
    by (unfold pos; rewrite L1, length_app; reflexivity).
  assert (p3 : pos s3 = S (pos s1) + length d3).
  { unfold pos at 1. rewrite L3, length_app. fold (pos (entered x h mgr s1)).
    now rewrite p2. }
  assert (pf : pos stf = S (pos s3)) by (rewrite Estf; apply pos_snoc).
  assert (C1 : calls s1 = calls st ++ map fst d1)
    by (unfold calls; now rewrite L1, map_app).
  assert (C3 : calls s3 = (calls s1 ++ [XEnter mgr]) ++ map fst d3).
  { unfold calls at 1. rewrite L3, map_app. unfold entered. simpl.
    now rewrite map_app. }
  assert (Cf : calls stf = calls s3 ++ [XExit mgr false])
    by (rewrite Estf; apply calls_snoc).
  assert (S1 : scan false (ops s1) = Some false).
  { unfold ops. rewrite C1, map_app, scan_app. fold (ops st). rewrite Out.
    apply scan_plain, plain_ops, P1. }
  assert (S2 : scan false (map op_of (calls s1 ++ [XEnter mgr])) = Some true).
  { rewrite map_app, scan_app. fold (ops s1). now rewrite S1. }
  assert (X1 : extends st s1) by (exists d1; exact L1).
  assert (X3 : extends s3 stf) by (rewrite Estf; apply extends_snoc).
  assert (X13 : extends s1 s3).
  { exists ((XEnter mgr, Ret h) :: d3). rewrite L3. unfold entered. simpl.
    now rewrite <- app_assoc. }
  assert (L2 : length (calls s1 ++ [XEnter mgr]) = S (pos s1))
    by (rewrite length_app, pos_calls; simpl; lia).
  split; [eapply extends_trans; [exact X1|];
          eapply extends_trans; [exact X13 | exact X3]|].
  split; [|split].
  - unfold outside, ops. rewrite Cf, C3.
    rewrite map_app, scan_app, map_app, scan_app, S2.
    rewrite (@scan_plain _ true (@plain_ops _ P3)). reflexivity.
  - intros R.
    rewrite (@with_enters me x body w st mgr s1 h).
    + unfold cleanup. rewrite O3 by (intros k Hk; apply R; lia).
      simpl. unfold bind. rewrite (@ext_ret _ w s3 v); [now rewrite Estf|].
      rewrite R; [exact Hr3 | lia].
    + apply O1. intros k Hk; apply R; lia.
    + rewrite R; [exact Hr2 | lia].
  - intros f e Hf R He Hd.
    destruct (Nat.lt_ge_cases f (pos s1)) as [Hlt|Hge].
    { (* the manager expression raises *)
      apply ends_at_bind with (st1 := s1); auto.
      - intros mgr0. apply steady_bind_grows; [apply steady_ext|]. intros h0.
        apply steady_bind_grows; [apply steady_assign|]. intros _.
        apply cleanup_grows, Gb.
      - eapply extends_trans; [exact X13 | exact X3].
      - destruct (strict_lenient Sme) as [_ Lme].
        destruct (Lme w wr st mgr s1 Out E1) as (_ & _ & _ & Fme).
        { eapply calm_extends; [|exact Calm].
          eapply extends_trans; [exact X13 | exact X3]. }
        apply Fme; auto; [lia|]. rewrite <- Hd. symmetry.
        apply displayed_extends; [|exact Hlt].
        eapply extends_trans; [exact X13 | exact X3]. }
    assert (Eme : me w st = (Ok mgr, s1))
      by (apply O1; intros k Hk; apply R; lia).
    destruct (Nat.eq_dec f (pos s1)) as [->|Hne].
    { (* entering the manager raises *)
      rewrite (@with_enter_raises me x body w st mgr s1 e Eme He).
      assert (Hin : in_body (map op_of (calls stf)) (pos s1) = false).
      { rewrite Cf, C3, <- !app_assoc, map_app.
        pose proof (@in_body_shift (ops s1)
                      (map op_of ([XEnter mgr] ++ map fst d3
                                  ++ [XExit mgr false])) 0 false S1) as Hs.
        rewrite Nat.add_0_r, length_ops in Hs. unfold ops in Hs.
        rewrite Hs. reflexivity. }
      unfold ends_at. rewrite Hin.
      split; [reflexivity|]. cbn [snd]. rewrite calls_snoc. fold (calls s1).
      rewrite Cf, C3, <- app_assoc.
      symmetry. apply firstn_exact. now rewrite L2. }
    assert (Hw1 : w (pos s1) = Ret h) by (rewrite R; [exact Hr2 | lia]).
    rewrite (@with_enters me x body w st mgr s1 h Eme Hw1). unfold cleanup.
    destruct (Nat.lt_ge_cases f (pos s3)) as [Hlt3|Hge3].
    { (* the body raises *)
      destruct (F3 f e) as (st' & Eb & Ec).
      - rewrite p2. lia.
      - intros k Hk. apply R. rewrite p2 in Hk. lia.
      - exact He.
      - rewrite <- Hd. symmetry. now apply displayed_extends.
      - rewrite Eb.
        assert (Hp : pos st' = S f).
        { rewrite <- pos_calls, Ec, length_firstn, pos_calls. lia. }
        destruct (@leave_raised mgr (Raised e) w st') as [Hc Hv];
          [discriminate|]. rewrite Hp in Hc, Hv.
        assert (Hfn : firstn (S f) (calls stf) = calls st').
        { rewrite Ec. apply extends_firstn; [exact X3 | lia]. }
        unfold ends_at. rewrite Hfn.
        assert (Hk : f = length (calls s1 ++ [XEnter mgr])
                         + (f - S (pos s1))) by (rewrite L2; lia).
        assert (Hin : in_body (map op_of (calls stf)) f = true).
        { rewrite Cf, C3, <- app_assoc, map_app.
          rewrite Hk at 1. rewrite <- (length_map op_of).
          rewrite (@in_body_shift _ _ (f - S (pos s1)) true S2).
          rewrite map_app, firstn_app.
          replace (f - S (pos s1) - length (map op_of (map fst d3)))
            with 0 by (rewrite !length_map; lia).
          simpl. rewrite app_nil_r.
          rewrite scan_plain by (apply forallb_firstn, plain_ops, P3).
          rewrite nth_error_app1 by (rewrite !length_map; lia).
          destruct (nth_error (map op_of (map fst d3)) (f - S (pos s1)))
            as [o|] eqn:En.
          - apply nth_error_In in En.
            pose proof (plain_ops _ P3) as Pp.
            rewrite forallb_forall in Pp. now apply Pp.
          - apply nth_error_None in En. rewrite !length_map in En. lia. }
        assert (Hm : manager (calls stf) f = mgr).
        { rewrite Cf, C3, <- app_assoc. rewrite Hk.
          apply manager_in_block; [exact P3|]. rewrite length_map. lia. }
        rewrite Hin, Hm.
        destruct (exit_verdict w (S f)); auto.
        exists []. now rewrite app_nil_r. }
    (* the exit of the manager raises *)
    assert (f = pos s3) as -> by lia.
    rewrite O3 by (intros k Hk; apply R; rewrite p2 in Hk; lia).
    simpl. unfold bind. rewrite (@ext_exc (XExit mgr false) w s3 e He).
    assert (Hin : in_body (map op_of (calls stf)) (pos s3) = false).
    { rewrite Cf, C3, <- app_assoc, map_app.
      replace (pos s3) with (length (map op_of (calls s1 ++ [XEnter mgr]))
                             + length d3)
        by (rewrite length_map, L2; lia).
      rewrite (@in_body_shift _ _ (length d3) true S2).
      rewrite map_app, firstn_app.
      rewrite firstn_all2 by (rewrite !length_map; lia).
      rewrite nth_error_app2 by (rewrite !length_map; lia).
      rewrite !length_map, Nat.sub_diag. simpl.
      rewrite app_nil_r.
      now rewrite (@scan_plain _ true (@plain_ops _ P3)). }
    unfold ends_at. rewrite Hin. cbn [fst snd]. split; [reflexivity|].
    rewrite calls_snoc. fold (calls s3). rewrite Cf. symmetry.
    apply firstn_all2. rewrite length_app, pos_calls. simpl. lia.
Qed.

(** Every notebook of the fragment ends as [ends_at] says. *)
Lemma run_lenient (nb : notebook) : lenient (run nb).
Proof.
  apply (Q_run strict lenient); intros.
  - apply strict_ret.
  - now apply strict_bind.
  - now apply strict_ext.
  - apply strict_display.
  - apply strict_lookup.
  - apply strict_assign.
  - now apply strict_lenient.
  - now apply lenient_bind.
  - now apply lenient_with.
Qed.

Unset Implicit Arguments.

(** ** Runs that agree with one library are the same run *)
















(** * The notebooks of the repository *)

(** ** The complete runs *)

(** When every call returns, every notebook runs to its last cell; the
    number of calls does not depend on what the calls return. *)
Lemma all_return_run nb v :
  In nb notebooks ->
  fst (run0 nb (oks v)) = Ok tt /\ pos (snd (run0 nb (oks v))) = ncalls nb.
Proof. intros H. each_notebook H; vm_compute; split; reflexivity. Qed.

Lemma healed_ops nb w :
  In nb notebooks -> ops (snd (run0 nb (heal w))) = plan nb.
Proof.
  intros H. unfold heal. generalize (fun k => val (w k)). intros v.
  each_notebook H; vm_compute; reflexivity.
Qed.

Lemma plans_are_calm nb : In nb notebooks -> calm (plan nb) = true.
Proof. intros H. each_notebook H; vm_compute; reflexivity. Qed.

Lemma length_plan nb : In nb notebooks -> length (plan nb) = ncalls nb.
Proof. intros H. each_notebook H; reflexivity. Qed.

Lemma outside_st0 : outside st0.
Proof. reflexivity. Qed.

Lemma healed_run nb w :
  In nb notebooks ->
  exists stf, run nb (heal w) st0 = (Ok tt, stf) /\ pos stf = ncalls nb /\
              calm (ops stf) = true.
Proof.
  intros H. destruct (all_return_run nb (fun k => val (w k)) H) as [Ho Hp].
  pose proof (healed_ops nb w H) as Hops.
  fold (heal w) in Ho, Hp. unfold run0 in *.
  destruct (run nb (heal w) st0) as [r stf]. simpl in *. subst r.
  exists stf. split; [reflexivity|]. split; [exact Hp|].
  rewrite Hops. apply plans_are_calm, H.
Qed.

Lemma all_ret_agree w n : all_ret w 0 n = true -> agree w (heal w) 0 n.
Proof.
  unfold all_ret. rewrite forallb_forall. intros R k Hk.
  assert (I : is_ret (w k) = true) by (apply R, in_seq; lia).
  unfold heal, oks. destruct (w k); [reflexivity | discriminate].
Qed.

(** A run in which the calls return is the run in the healed world. *)
Lemma complete_run nb w :
  In nb notebooks -> all_ret w 0 (ncalls nb) = true ->
  run0 nb w = run0 nb (heal w) /\
  fst (run0 nb w) = Ok tt /\ pos (snd (run0 nb w)) = ncalls nb.
Proof.
  intros H R. destruct (healed_run nb w H) as (stf & E & Hp & Calm).
  destruct (proj2 (run_lenient nb) w (heal w) st0 tt stf outside_st0 E Calm)
    as (_ & _ & O & _).
  unfold run0. rewrite E.
  rewrite O; [auto|]. rewrite Hp. apply all_ret_agree, R.
Qed.

Lemma run_in_healed nb w n :
  fst (run0 nb (heal w)) = Ok tt ->
  calm (ops (snd (run0 nb (heal w)))) = true ->
  pos (snd (run0 nb (heal w))) <= n ->
  all_ret w 0 n = true ->
  run0 nb w = run0 nb (heal w).
Proof.
  unfold run0. intros Ho Calm Hp R.
  destruct (run nb (heal w) st0) as [r stf] eqn:E. simpl in *. subst r.
  destruct (proj2 (run_lenient nb) w (heal w) st0 tt stf outside_st0 E Calm)
    as (_ & _ & O & _).
  apply O. intros k Hk. apply (all_ret_agree w n R). lia.
Qed.

(** The complete run with the values of [w]. *)
Lemma mended_run nb w :
  In nb notebooks ->
  fst (run0 nb (mend nb w)) = Ok tt /\
  pos (snd (run0 nb (mend nb w))) = ncalls nb /\
  ops (snd (run0 nb (mend nb w))) = plan nb.
Proof.
  intros H. each_notebook H; vm_compute; repeat split; reflexivity.
Qed.

Lemma map_complete_calls nb w :
  In nb notebooks -> map op_of (complete_calls nb w) = plan nb.
Proof. intros H. apply (mended_run nb w H). Qed.

(** ** Every run, complete or not *)

Lemma quiet_or_fails nb w n :
  quiet nb w n = true \/
  exists f e, f < n /\ quiet nb w f = true /\ displays_at nb f = false /\
              w f = Exc e.
Proof.
  induction n as [|n [IH|(f & e & Hf & R & Hd & He)]].
  - left. reflexivity.
  - destruct (displays_at nb n) eqn:Ed.
    + left. unfold quiet in *. rewrite seq_S, forallb_app, IH. simpl.
      now rewrite Ed.
    + destruct (w n) as [v|e] eqn:E.
      * left. unfold quiet in *. rewrite seq_S, forallb_app, IH. simpl.
        now rewrite E, Ed.
      * right. exists n, e. auto.
  - right. exists f, e. auto.
Qed.

Lemma quiet_agree nb w n : quiet nb w n = true -> agree w (mend nb w) 0 n.
Proof.
  unfold quiet. rewrite forallb_forall. intros R k Hk.
  assert (I : displays_at nb k || is_ret (w k) = true)
    by (apply R, in_seq; lia).
  unfold mend. fold (displays_at nb k).
  destruct (displays_at nb k); [reflexivity|]. simpl in I.
  destruct (w k); [reflexivity | discriminate].
Qed.

Lemma patched_same nb w f e :
  quiet nb w f = true -> w f = Exc e ->
  forall k, w k = patched nb w f e (w (S f)) (w (S (S f))) k.
Proof.
  intros Q He k. unfold patched.
  destruct (Nat.ltb_spec k f) as [Hlt|Hge].
  - apply (quiet_agree nb w f Q). lia.
  - destruct (Nat.eqb_spec k f) as [->|N1]; [exact He|].
    destruct (Nat.eqb_spec k (S f)) as [->|N2]; [reflexivity|].
    destruct (Nat.eqb_spec k (S (S f))) as [->|N3]; reflexivity.
Qed.

Lemma patched_next nb w f e r1 r2 :
  patched nb w f e r1 r2 (S f) = r1 /\
  patched nb w f e r1 r2 (S (S f)) = r2.
Proof.
  unfold patched.
  destruct (Nat.ltb_spec (S f) f); [lia|].
  destruct (Nat.ltb_spec (S (S f)) f); [lia|].
  destruct (Nat.eqb_spec (S f) f); [lia|].
  destruct (Nat.eqb_spec (S (S f)) f); [lia|].
  rewrite Nat.eqb_refl.
  destruct (Nat.eqb_spec (S (S f)) (S f)); [lia|].
  now rewrite Nat.eqb_refl.
Qed.

Ltac after_the_block :=
  vm_compute; split; [eexists; reflexivity | reflexivity].

(** When the exit of the block drops the exception, the cell goes on and
    reads a name that the body has not bound. *)
Lemma dropped_patched nb w f e r1 r2 :
  In nb notebooks -> f < ncalls nb -> in_body (plan nb) f = true ->
  match r1 with
  | Exc _ => False
  | Ret v =>
      match truthy v with
      | Some b => b = true
      | None => r2 = Ret (VBool true)
      end
  end ->
  (exists x, fst (run0 nb (patched nb w f e r1 r2)) = NameError x) /\
  calls (snd (run0 nb (patched nb w f e r1 r2)))
  = firstn (S f) (complete_calls nb w)
    ++ exit_calls (manager (complete_calls nb w) f)
         (patched nb w f e r1 r2) (S f).
Proof.
  intros H Hf Hb Hv.
  assert (Hin : In f (filter (in_body (plan nb)) (seq 0 (ncalls nb))))
    by (apply filter_In; split; [apply in_seq; lia | exact Hb]).
  clear Hf Hb.
  assert (Hl : filter (in_body (plan nb)) (seq 0 (ncalls nb))
               = if String.eqb (title nb) (title fits_images)
                 then [24; 25; 34; 35; 110; 111] else [])
    by (each_notebook H; vm_compute; reflexivity).
  rewrite Hl in Hin. clear Hl.
  each_notebook H; simpl in Hin; try contradiction.
  destruct r1 as [v|e2]; [|contradiction].
  destruct v as [ |[|]|[|p|p]|l|[|c s]|[|v0 vs]|lo hi|k v0|b|j];
    simpl in Hv; try discriminate;
    try (subst r2);
    (destruct Hin as [<-|[<-|[<-|[<-|[<-|[<-|[]]]]]]]; after_the_block).
Qed.

Lemma exit_calls_patched nb w f e mgr :
  exit_calls mgr (patched nb w f e (w (S f)) (w (S (S f)))) (S f)
  = exit_calls mgr w (S f).
Proof.
  unfold exit_calls.
  now rewrite (proj1 (patched_next nb w f e (w (S f)) (w (S (S f))))).
Qed.

Lemma dropped_run nb w f e :
  In nb notebooks -> first_failure nb w f e ->
  in_body (plan nb) f = true -> exit_verdict w (S f) = Dropped ->
  (exists x, fst (run0 nb w) = NameError x) /\
  calls (snd (run0 nb w))
  = firstn (S f) (complete_calls nb w)
    ++ exit_calls (manager (complete_calls nb w) f) w (S f).
Proof.
  intros H (Hf & Q & Hd & He) Hb Hv.
  assert (E : run0 nb w
              = run0 nb (patched nb w f e (w (S f)) (w (S (S f))))).
  { apply (proj2 (run_steady nb)). apply patched_same; assumption. }
  rewrite E, <- (exit_calls_patched nb w f e).
  apply dropped_patched; try assumption.
  unfold exit_verdict in Hv. destruct (w (S f)) as [v|e2]; [|discriminate].
  destruct (truthy v) as [[|]|]; try discriminate; [reflexivity|].
  destruct (w (S (S f))) as [[ |[|]| | | | | | | | ]|e3];
    try discriminate. reflexivity.
Qed.

(** A run either is the complete run, when its calls return, but for
    displays; or it ends at its first failure. *)
Lemma run_shape nb w :
  In nb notebooks ->
  (quiet nb w (ncalls nb) = true /\ run0 nb w = run0 nb (mend nb w)) \/
  (exists f e, first_failure nb w f e /\ fails_at nb w f e).
Proof.
  intros H. destruct (mended_run nb w H) as (Ho & Hp & Hops).
  assert (Hc : complete_calls nb w = calls (snd (run0 nb (mend nb w))))
    by reflexivity.
  unfold run0 in Ho, Hp, Hops, Hc.
  destruct (run nb (mend nb w) st0) as [r stf] eqn:E. simpl in *. subst r.
  assert (Calm : calm (ops stf) = true)
    by (rewrite Hops; apply plans_are_calm, H).
  destruct (proj2 (run_lenient nb) w (mend nb w) st0 tt stf outside_st0 E
              Calm) as (_ & _ & O & F).
  destruct (quiet_or_fails nb w (ncalls nb)) as [Q|(f & e & Hf & Q & Hd & He)].
  - left. split; [exact Q|]. unfold run0. rewrite E. apply O.
    rewrite Hp. apply quiet_agree, Q.
  - right. exists f, e.
    assert (FF : first_failure nb w f e) by (unfold first_failure; auto).
    split; [exact FF|].
    assert (En : ends_at (run nb w st0) w (calls stf) f e).
    { apply F; auto.
      - unfold pos at 1. simpl. lia.
      - intros k Hk. apply (quiet_agree nb w f Q). lia.
      - rewrite Hops. exact Hd. }
    unfold ends_at in En. fold (ops stf) in En. rewrite Hops in En.
    unfold fails_at. rewrite Hc. fold (run0 nb w) in En.
    destruct (in_body (plan nb) f) eqn:Hb; [|exact En].
    destruct (exit_verdict w (S f)) eqn:Hv.
    + destruct En as [E1 E2]. auto.
    + destruct En as [E1 E2]. auto.
    + destruct (dropped_run nb w f e H FF Hb Hv) as [Hx Hcalls].
      rewrite Hc in Hcalls. auto.
Qed.

Lemma in_firstn (A : Type) (n : nat) (l : list A) (x : A) :
  In x (firstn n l) -> In x l.
Proof.
  intros H. rewrite <- (firstn_skipn n l). apply in_or_app. now left.
Qed.

Lemma in_exit_calls c mgr w p :
  In c (exit_calls mgr w p) -> c = XExit mgr true \/ exists v, c = XBool v.
Proof.
  unfold exit_calls. intros [<-|Hc]; [auto|].
  destruct (w p) as [v|e]; [|contradiction].
  destruct (truthy v); [contradiction|].
  destruct Hc as [<-|[]]. eauto.
Qed.

(** The calls of any run are calls of the complete run, or the calls made
    on the way out of a [with] block. *)
Lemma any_run_calls nb w c :
  In nb notebooks -> In c (calls (snd (run0 nb w))) ->
  In c (complete_calls nb w) \/ (exists mgr, c = XExit mgr true) \/
  (exists v, c = XBool v).
Proof.
  intros H Hc. destruct (run_shape nb w H) as [[_ E]|(f & e & _ & Fa)].
  - left. unfold complete_calls. now rewrite <- E.
  - unfold fails_at in Fa. destruct (in_body (plan nb) f).
    + destruct Fa as [E _]. rewrite E in Hc. apply in_app_or in Hc.
      destruct Hc as [Hc|Hc]; [left; eapply in_firstn; eauto|].
      right. apply in_exit_calls in Hc. destruct Hc as [->|Hc]; eauto.
    + destruct Fa as [_ E]. rewrite E in Hc. left. eapply in_firstn; eauto.
Qed.

Lemma complete_runs_rename nb v :
  In nb notebooks ->
  snd (run0 nb (oks v)) = rename_state v (snd (run0 nb tags)).
Proof. intros H. each_notebook H; vm_compute; reflexivity. Qed.

Lemma nth_error_numbered (A : Type) (l : list A) : forall a j x,
  nth_error l j = Some x -> In (a + j, x) (combine (seq a (length l)) l).
Proof.
  induction l as [|y l IH]; intros a [|j] x Hj; simpl in *; try discriminate.
  - injection Hj as ->. left. f_equal. lia.
  - right. replace (a + S j) with (S a + j) by lia. now apply IH.
Qed.

Lemma flow_numbered nb j c r :
  In nb notebooks -> nth_error (flow nb) j = Some (c, r) -> r = Ret (VObj j).
Proof.
  intros H Hj.
  assert (F : forallb returns_own_number
                (combine (seq 0 (length (flow nb))) (flow nb)) = true)
    by (each_notebook H; vm_compute; reflexivity).
  rewrite forallb_forall in F.
  apply (nth_error_numbered _ (flow nb) 0) in Hj. apply F in Hj.
  unfold returns_own_number in Hj. simpl in Hj.
  destruct r as [[]|]; try discriminate.
  apply Nat.eqb_eq in Hj. now subst.
Qed.

(** ** The first failure of a run *)

Lemma quiet_at nb w n k :
  quiet nb w n = true -> k < n -> displays_at nb k = false ->
  is_ret (w k) = true.
Proof.
  unfold quiet. rewrite forallb_forall. intros Q Hk Hd.
  assert (I : displays_at nb k || is_ret (w k) = true)
    by (apply Q, in_seq; lia).
  now rewrite Hd in I.
Qed.

Lemma quiet_no_failure nb w f e :
  quiet nb w (ncalls nb) = true -> first_failure nb w f e -> False.
Proof.
  intros Q (Hf & _ & Hd & He).
  pose proof (quiet_at nb w (ncalls nb) f Q Hf Hd) as I.
  now rewrite He in I.
Qed.


Lemma ops_exit_calls mgr w p :
  map op_of (exit_calls mgr w p) = [OExit true] \/
  map op_of (exit_calls mgr w p) = [OExit true; OBool].
Proof.
  unfold exit_calls. destruct (w p) as [v|e]; [|now left].
  destruct (truthy v); [now left | now right].
Qed.

(** ** C1: the notebooks run to completion *)

(** C1. If every external call succeeds, each notebook executes all its
    cells from top to bottom and raises nothing: the run ends normally after
    all the [ncalls nb] calls of the notebook. *)
Theorem notebooks_run_to_completion :
  forall nb w, In nb notebooks -> all_ret w 0 (ncalls nb) = true ->
    exists st, run0 nb w = (Ok tt, st) /\ pos st = ncalls nb.
Proof.
  intros nb w H R. destruct (complete_run nb w H R) as (_ & Ho & Hp).
  destruct (run0 nb w) as [r st]. simpl in *. subst r. eauto.
Qed.

Lemma notebooks_run_to_completion_witness :
  exists st, run0 transit_signals tags = (Ok tt, st) /\
             pos st = ncalls transit_signals.
Proof.
  apply (notebooks_run_to_completion transit_signals tags).
  - unfold notebooks. simpl. auto.
  - vm_compute. reflexivity.
Defined.

(** ** C2: which failures end the run *)




(** The three ways out of the first [with] block of the notebook on FITS
    images, when [hdulist[1]] raises IndexError: the exit of the file
    returns None and the run ends with the IndexError; the exit raises and
    the run ends with its exception; the exit returns True and the cell goes
    on to [print(repr(header1[0:24]))], where [header1] is not bound. *)
Example ways_out_of_a_block :
  fst (run0 fits_images hdu_missing) = Raised "IndexError" /\
  skipn 23 (log (snd (run0 fits_images hdu_missing)))
  = [(XEnter (VObj 22), Ret (VObj 23));
     (XGetItem (VObj 23) (VInt 1), Exc "IndexError");
     (XExit (VObj 22) true, Ret VNone)] /\
  assoc "header1" (globals (snd (run0 fits_images hdu_missing))) = None /\
  fst (run0 fits_images
         (fun k => if Nat.eqb k 24 then Exc "IndexError"
                   else if Nat.eqb k 25 then Exc "OSError"
                   else Ret (VObj k)))
  = Raised "OSError" /\
  fst (run0 fits_images hdu_missing_and_dropped) = NameError "header1".
Proof. vm_compute. repeat split. Qed.

(** ** C4: how many queries, downloads and plots *)

(** C4, counterexample. In a complete run of the notebook on plotting
    images from target pixel files, [plt.imshow] is called four times (and
    the archive is queried twice). *)
Lemma plotting_calls_exceed_two :
  count is_plot (snd (run0 fits_images tags)) = 4 /\
  count is_query (snd (run0 fits_images tags)) = 2 /\
  ~ one_query_one_download_two_plots.
Proof.
  split; [reflexivity|]. split; [reflexivity|]. intros C.
  destruct (C fits_images tags) as (_ & _ & Hp).
  - unfold notebooks. simpl. auto.
  - vm_compute. reflexivity.
  - vm_compute in Hp. lia.
Qed.

(** C4, amended. In a complete run a notebook queries the archive at most
    three times, downloads at most three times, and makes between 4 and 21
    plotting calls. *)
Theorem queries_downloads_plots_bounded :
  forall nb w, In nb notebooks -> all_ret w 0 (ncalls nb) = true ->
    count is_query (snd (run0 nb w)) <= 3 /\
    count is_download (snd (run0 nb w)) <= 3 /\
    4 <= count is_plot (snd (run0 nb w)) <= 21.
Proof.
  intros nb w H R. destruct (complete_run nb w H R) as (-> & _ & _).
  unfold heal. generalize (fun k => val (w k)). intros v.
  each_notebook H; vm_compute; lia.
Qed.

Lemma queries_downloads_plots_bounded_witness :
  count is_query (snd (run0 own_light_curves tags)) <= 3 /\
  count is_download (snd (run0 own_light_curves tags)) <= 3 /\
  4 <= count is_plot (snd (run0 own_light_curves tags)) <= 21.
Proof.
  apply (queries_downloads_plots_bounded own_light_curves tags).
  - unfold notebooks. simpl. auto.
  - vm_compute. reflexivity.
Defined.

(** The numbers of queries, downloads and plotting calls of each notebook. *)
Example counts_of_the_notebooks :
  map (fun nb => let st := snd (run0 nb tags) in
         (count is_query st, count is_download st, count is_plot st))
      notebooks
  = [(2, 1, 4); (1, 1, 14); (2, 3, 13); (3, 3, 21)].
Proof. reflexivity. Qed.

(** ** C5: the notebooks are straight-line scripts *)

(** C5. A notebook is a straight line of external calls: what the calls
    return has no influence on which operations are performed.  The
    complete run performs the operations of [plan nb], one after the other;
    any other run performs the first [n] of them, for some [n], before it
    stops (closing the FITS file of the [with] block it was in, if any, and
    testing the value that closing it returned, when that is an object).
    The run is a total function, making at most [ncalls nb] calls of the
    plan.  FITS parsing, aperture photometry and the box-least-squares
    periodogram are single calls of the plans: [fits.open], [to_lightcurve]
    and [to_periodogram]. *)
Theorem notebooks_are_straight_line :
  forall nb w, In nb notebooks ->
    (all_ret w 0 (ncalls nb) = true ->
       fst (run0 nb w) = Ok tt /\ ops (snd (run0 nb w)) = plan nb) /\
    (exists n, n <= ncalls nb /\
       (ops (snd (run0 nb w)) = firstn n (plan nb) \/
        ops (snd (run0 nb w)) = firstn n (plan nb) ++ [OExit true] \/
        ops (snd (run0 nb w)) = firstn n (plan nb) ++ [OExit true; OBool])) /\
    In (OCallMethod "open" 1) (plan fits_images) /\
    In (OCallMethod "to_lightcurve" 0) (plan tpf_plots) /\
    In (OCallMethod "to_lightcurve" 1) (plan own_light_curves) /\
    In (OCallMethod "to_periodogram" 3) (plan transit_signals).
Proof.
  intros nb w H. split; [|split].
  - intros R. destruct (complete_run nb w H R) as (E & Ho & _).
    split; [exact Ho|]. rewrite E. apply healed_ops, H.
  - destruct (run_shape nb w H) as [[_ E]|(f & e & (Hf & _) & Fa)].
    + exists (ncalls nb). split; [lia|]. left.
      rewrite E, (proj2 (proj2 (mended_run nb w H))).
      rewrite <- (length_plan nb H). symmetry. apply firstn_all.
    + exists (S f). split; [lia|]. unfold fails_at in Fa. unfold ops.
      destruct (in_body (plan nb) f).
      * destruct Fa as [E _]. rewrite E, map_app, <- firstn_map.
        rewrite (map_complete_calls nb w H).
        destruct (ops_exit_calls (manager (complete_calls nb w) f) w (S f))
          as [-> | ->]; auto.
      * destruct Fa as [_ E]. left. rewrite E, <- firstn_map.
        now rewrite (map_complete_calls nb w H).
  - vm_compute. intuition.
Qed.

Lemma notebooks_are_straight_line_witness :
  (all_ret tags 0 (ncalls transit_signals) = true ->
     fst (run0 transit_signals tags) = Ok tt /\
     ops (snd (run0 transit_signals tags)) = plan transit_signals) /\
  (exists n, n <= ncalls transit_signals /\
     (ops (snd (run0 transit_signals tags)) = firstn n (plan transit_signals) \/
      ops (snd (run0 transit_signals tags))
        = firstn n (plan transit_signals) ++ [OExit true] \/
      ops (snd (run0 transit_signals tags))
        = firstn n (plan transit_signals) ++ [OExit true; OBool])) /\
  In (OCallMethod "open" 1) (plan fits_images) /\
  In (OCallMethod "to_lightcurve" 0) (plan tpf_plots) /\
  In (OCallMethod "to_lightcurve" 1) (plan own_light_curves) /\
  In (OCallMethod "to_periodogram" 3) (plan transit_signals).
Proof.
  apply (notebooks_are_straight_line transit_signals tags).
  unfold notebooks. simpl. auto.
Defined.

(** ** C7: what the notebooks output and persist *)

Lemma complete_writes nb w :
  In nb notebooks -> existsb writes_file (complete_calls nb w) = false.
Proof.
  intros H. each_notebook H; vm_compute; reflexivity.
Qed.

(** C7. In every run of every notebook, each external call either leaves
    nothing behind, or draws an inline plot, or prints text (a [print] or
    the display of the value of a cell), or is a download by the archive
    library; no call writes a file. *)
Theorem outputs_are_plots_and_text :
  forall nb w c, In nb notebooks -> In c (calls (snd (run0 nb w))) ->
    effect_of c = Silent \/ effect_of c = Inline_plot \/
    effect_of c = Text_output \/
    (effect_of c = Downloaded_file /\ is_download c = true).
Proof.
  intros nb w c H Hc.
  assert (A : writes_file c = false).
  { destruct (any_run_calls nb w c H Hc) as [Hh|[(mgr & ->)|(v & ->)]];
      [|reflexivity|reflexivity].
    pose proof (complete_writes nb w H) as F.
    destruct (writes_file c) eqn:E; [|reflexivity].
    rewrite <- F. symmetry. apply existsb_exists. eauto. }
  unfold writes_file in A. unfold effect_of.
  destruct (is_plot c); [auto|]. destruct (is_download c); [auto|].
  simpl in A. rewrite A.
  destruct c; auto.
  - destruct f; auto. destruct (String.eqb name "print"); auto.
  - destruct v; auto.
Qed.

Lemma outputs_are_plots_and_text_witness :
  effect_of (XCallMethod (VObj 5) "plot" []) = Silent \/
  effect_of (XCallMethod (VObj 5) "plot" []) = Inline_plot \/
  effect_of (XCallMethod (VObj 5) "plot" []) = Text_output \/
  (effect_of (XCallMethod (VObj 5) "plot" []) = Downloaded_file /\
   is_download (XCallMethod (VObj 5) "plot" []) = true).
Proof.
  apply (outputs_are_plots_and_text transit_signals tags).
  - unfold notebooks. simpl. auto.
  - vm_compute. intuition.
Defined.

(** ** C10: runs are determined by what the libraries return *)





(** A notebook that draws a random number is not determined by the
    libraries: in two runs of [dice] every answer but those of the
    generator is the same function of the call and of the calls before it,
    and the values displayed differ. *)
Example randomness_is_not_determined :
  reproducible naming_lib (log (snd (run0 dice heads))) /\
  reproducible naming_lib (log (snd (run0 dice tails))) /\
  calls (snd (run0 dice heads))
  = [XImportFrom "numpy" "random"; XGetAttr (VObj 0) "rand";
     XCallMethod (VObj 0) "rand" []; XDisplay (VFloat "0.25")] /\
  calls (snd (run0 dice tails))
  = [XImportFrom "numpy" "random"; XGetAttr (VObj 0) "rand";
     XCallMethod (VObj 0) "rand" []; XDisplay (VFloat "0.75")] /\
  run0 dice heads <> run0 dice tails.
Proof.
  split; [|split; [|split; [|split]]].
  - vm_compute. repeat split; discriminate.
  - vm_compute. repeat split; discriminate.
  - reflexivity.
  - reflexivity.
  - vm_compute. discriminate.
Qed.

(** ** C6: the apertures *)

(** C6, counterexample. The last cell of the notebook on FITS images draws
    [imgdata] under the title 'TPF APERTURE': the pixels of the optimal
    aperture.  The notebook read it from the downloaded file, as the data of
    the extension number 2, [hdulist[2].data] (cell 43, calls 110 and 111),
    and prints it; it comes from no mask routine of the library and was not
    built with numpy. *)
Lemma the_aperture_extension_is_read_from_the_file :
  nth_error (map fst (flow fits_images)) 118
    = Some (XCallMethod (VObj 4) "title" [VStr "TPF APERTURE"]) /\
  nth_error (map fst (flow fits_images)) 126
    = Some (XCallMethod (VObj 4) "imshow"
              [imgdata; VKw "cmap" (VObj 125)]) /\
  In imgdata (apertures (flow fits_images)) /\
  origin_of (flow fits_images) imgdata = None /\
  extension_read (flow fits_images) imgdata = Some 2%Z /\
  ~ every_aperture_has_one_of_two_origins.
Proof.
  repeat (split; [vm_compute; auto|]).
  intros C. destruct (C fits_images imgdata) as [E|E].
  - unfold notebooks. simpl. auto.
  - vm_compute. auto.
  - vm_compute in E. discriminate.
  - vm_compute in E. discriminate.
Qed.

(** C6, amended. In the complete run of a notebook every aperture, given to
    a call as its aperture mask or drawn as an image, was obtained in
    exactly one of three ways: from the library (one of the keywords
    'pipeline', 'threshold', 'all', the value of [create_threshold_mask], or
    the pipeline mask of the pixel file); as an array of booleans that the
    notebook built with [np.zeros(..., dtype='bool')]; or, in the notebook
    on FITS images, as the data of the extension number 2 of the downloaded
    file.  The masks given to the library are of the first two kinds, and
    the hand-built arrays are modified only by storing True in them.  This
    is stated on the run that names each object by the call that returned
    it ([VObj j] is what the call number [j] returned), of which every
    complete run is a renaming. *)
Theorem apertures_have_one_of_three_origins :
  forall nb a, In nb notebooks -> In a (apertures (flow nb)) ->
    (forall v, snd (run0 nb (oks v)) = rename_state v (snd (run0 nb tags))) /\
    (forall j c1 r, nth_error (flow nb) j = Some (c1, r) -> r = Ret (VObj j)) /\
    ((origin_of (flow nb) a = Some By_library /\
      extension_read (flow nb) a = None) \/
     (origin_of (flow nb) a = Some Built_with_numpy /\
      extension_read (flow nb) a = None) \/
     (origin_of (flow nb) a = None /\
      extension_read (flow nb) a = Some 2%Z /\
      title nb = title fits_images)) /\
    (forall c, In c (map fst (flow nb)) -> aperture_arg c = Some a ->
       origin_of (flow nb) a = Some By_library \/
       origin_of (flow nb) a = Some Built_with_numpy) /\
    (forall o i x, In (XSetItem o i x) (map fst (flow nb)) ->
       origin_of (flow nb) o = Some Built_with_numpy /\ x = VBool true).
Proof.
  intros nb a H Ha. split; [|split; [|split; [|split]]].
  - intros v. apply complete_runs_rename, H.
  - intros j c1 r. apply flow_numbered, H.
  - assert (F : forallb (aperture_origin_ok nb (flow nb)) (apertures (flow nb))
                = true)
      by (each_notebook H; vm_compute; reflexivity).
    rewrite forallb_forall in F. apply F in Ha. clear F.
    unfold aperture_origin_ok in Ha.
    destruct (origin_of (flow nb) a) as [[]|];
      destruct (extension_read (flow nb) a) as [n|]; try discriminate; auto.
    apply andb_prop in Ha. destruct Ha as [Hn Ht].
    apply Z.eqb_eq in Hn. apply String.eqb_eq in Ht. subst n. auto.
  - intros c Hc Hac.
    assert (F : forallb (mask_has_origin (flow nb)) (map fst (flow nb)) = true)
      by (each_notebook H; vm_compute; reflexivity).
    rewrite forallb_forall in F. apply F in Hc.
    unfold mask_has_origin in Hc. rewrite Hac in Hc.
    destruct (origin_of (flow nb) a) as [[]|]; [auto | auto | discriminate].
  - intros o i x Hs.
    assert (F : forallb (item_assignment_ok (flow nb)) (map fst (flow nb))
                = true)
      by (each_notebook H; vm_compute; reflexivity).
    rewrite forallb_forall in F. apply F in Hs. simpl in Hs.
    destruct (origin_of (flow nb) o) as [[]|]; try discriminate.
    destruct x as [|[]| | | | | | | |]; try discriminate. auto.
Qed.

Lemma apertures_have_one_of_three_origins_witness :
  (forall v, snd (run0 fits_images (oks v))
             = rename_state v (snd (run0 fits_images tags))) /\
  (forall j c1 r, nth_error (flow fits_images) j = Some (c1, r) ->
     r = Ret (VObj j)) /\
  ((origin_of (flow fits_images) imgdata = Some By_library /\
    extension_read (flow fits_images) imgdata = None) \/
   (origin_of (flow fits_images) imgdata = Some Built_with_numpy /\
    extension_read (flow fits_images) imgdata = None) \/
   (origin_of (flow fits_images) imgdata = None /\
    extension_read (flow fits_images) imgdata = Some 2%Z /\
    title fits_images = title fits_images)) /\
  (forall c, In c (map fst (flow fits_images)) ->
     aperture_arg c = Some imgdata ->
     origin_of (flow fits_images) imgdata = Some By_library \/
     origin_of (flow fits_images) imgdata = Some Built_with_numpy) /\
  (forall o i x, In (XSetItem o i x) (map fst (flow fits_images)) ->
     origin_of (flow fits_images) o = Some Built_with_numpy /\
     x = VBool true).
Proof.
  apply (apertures_have_one_of_three_origins fits_images imgdata).
  - unfold notebooks. simpl. auto.
  - vm_compute. auto.
Defined.

(** The apertures of the notebooks, with the way each was obtained. *)
Example origins_of_the_apertures :
  map (fun nb =>
         map (fun a => (a, origin_of (flow nb) a, extension_read (flow nb) a))
             (apertures (flow nb)))
      notebooks
  = [[(VObj 111, None, Some 2%Z)];
     [];
     [(VObj 36, Some By_library, None); (VObj 62, Some By_library, None);
      (VObj 66, Some By_library, None)];
     [(VStr "pipeline", Some By_library, None);
      (VStr "pipeline", Some By_library, None);
      (VStr "pipeline", Some By_library, None);
      (VStr "pipeline", Some By_library, None);
      (VStr "threshold", Some By_library, None);
      (VStr "all", Some By_library, None);
      (VStr "pipeline", Some By_library, None);
      (VStr "threshold", Some By_library, None);
      (VStr "all", Some By_library, None);
      (VObj 45, Some By_library, None);
      (VStr "pipeline", Some By_library, None);
      (VObj 82, Some By_library, None); (VObj 85, Some By_library, None);
      (VObj 85, Some By_library, None);
      (VObj 96, Some Built_with_numpy, None);
      (VObj 114, Some Built_with_numpy, None);
      (VObj 114, Some Built_with_numpy, None)]].
Proof. reflexivity. Qed.

(** ** C3: what the notebooks construct and modify themselves *)

(** C3, counterexample. The notebook on custom aperture photometry builds
    an aperture mask with [np.zeros] (cell 47, call 96 of the run), modifies
    it in place ([custom_mask[-3:,5:] = True], call 97) and hands it to the
    library as the aperture of a plot (cell 49, call 100). *)
Lemma custom_mask_is_built_and_modified :
  nth_error (map fst (flow own_light_curves)) 96
    = Some (XCallMethod (VObj 1) "zeros"
              [VObj 95; VKw "dtype" (VStr "bool")]) /\
  nth_error (map fst (flow own_light_curves)) 97 = Some set_custom_mask /\
  nth_error (map fst (flow own_light_curves)) 100 = Some plot_custom_mask /\
  ~ only_reads_and_displays.
Proof.
  split; [reflexivity|]. split; [reflexivity|]. split; [reflexivity|].
  intros C. destruct (C own_light_curves set_custom_mask) as [Hm _].
  - unfold notebooks. simpl. auto.
  - vm_compute. intuition.
  - discriminate.
Qed.

(** C3, amended. The notebooks modify an object in place only in the
    notebook on custom aperture photometry, and only to store True in an
    array of booleans that the notebook built itself with [np.zeros]; the
    only functions of numpy that a notebook calls are [zeros], [subtract]
    and [linspace]; and the only operator applied to a value is the
    negation of the transit mask, in the notebook on transit signals.
    Every other call reads, displays or passes on what the libraries
    computed. *)
Theorem notebooks_modify_only_hand_built_masks :
  forall nb c, In nb notebooks -> In c (map fst (flow nb)) ->
    (modifies c = true ->
       title nb = title own_light_curves /\
       exists o i, c = XSetItem o i (VBool true) /\
                   origin_of (flow nb) o = Some Built_with_numpy) /\
    (numpy_call (flow nb) c = true ->
       named ["zeros"; "subtract"; "linspace"] c = true) /\
    (forall o, c = XInvert o -> title nb = title transit_signals).
Proof.
  intros nb c H Hc.
  assert (F : forallb (own_computation_ok nb) (map fst (flow nb)) = true)
    by (each_notebook H; vm_compute; reflexivity).
  rewrite forallb_forall in F. apply F in Hc. unfold own_computation_ok in Hc.
  apply andb_prop in Hc. destruct Hc as [Hc Hv].
  apply andb_prop in Hc. destruct Hc as [Hm Hn]. split; [|split].
  - intros M. rewrite M in Hm. apply andb_prop in Hm. destruct Hm as [Ht Hi].
    apply String.eqb_eq in Ht. split; [exact Ht|].
    destruct c; try discriminate. simpl in Hi.
    destruct (origin_of (flow nb) o) as [[]|] eqn:Eo; try discriminate.
    destruct v as [|[]| | | | | | | |]; try discriminate. eauto.
  - intros N. now rewrite N in Hn.
  - intros o ->. now apply String.eqb_eq.
Qed.

Lemma notebooks_modify_only_hand_built_masks_witness :
  (modifies set_custom_mask = true ->
     title own_light_curves = title own_light_curves /\
     exists o i, set_custom_mask = XSetItem o i (VBool true) /\
                 origin_of (flow own_light_curves) o = Some Built_with_numpy) /\
  (numpy_call (flow own_light_curves) set_custom_mask = true ->
     named ["zeros"; "subtract"; "linspace"] set_custom_mask = true) /\
  (forall o, set_custom_mask = XInvert o ->
     title own_light_curves = title transit_signals).
Proof.
  apply (notebooks_modify_only_hand_built_masks own_light_curves
           set_custom_mask).
  - unfold notebooks. simpl. auto.
  - vm_compute. intuition.
Defined.

(** The functions of numpy that each notebook calls, in order. *)
Example numpy_calls_of_the_notebooks :
  map (fun nb =>
         flat_map (fun c => if numpy_call (flow nb) c
                            then match method_of c with
                                 | Some m => [m]
                                 | None => []
                                 end
                            else [])
                  (map fst (flow nb)))
      notebooks
  = [["subtract"]; ["linspace"; "linspace"]; []; ["zeros"; "zeros"]].
Proof. reflexivity. Qed.

(** ** C9: masking the transits of planet b *)

Lemma select_partition (A : Type) (rows : list A) : forall mask,
  length mask = length rows ->
  Permutation (select A rows (invert mask) ++ select A rows mask) rows /\
  length (select A rows (invert mask)) + length (select A rows mask)
  = length rows.
Proof.
  induction rows as [|x rows IH]; intros [|b mask] Hl; simpl in *;
    try discriminate; [split; [constructor | reflexivity]|].
  injection Hl as Hl. destruct (IH mask Hl) as [P L].
  destruct b; simpl.
  - split; [|lia]. apply Permutation_sym, Permutation_cons_app.
    now apply Permutation_sym.
  - split; [|lia]. now constructor.
Qed.

Lemma invert_nth mask i :
  i < length mask ->
  xorb (nth i (invert mask) false) (nth i mask false) = true.
Proof.
  revert i. induction mask as [|b mask IH]; intros [|i] Hi; simpl in *;
    try lia.
  - now destruct b.
  - apply IH. lia.
Qed.

Lemma all_ret_le w n m : n <= m -> all_ret w 0 m = true -> all_ret w 0 n = true.
Proof.
  unfold all_ret. rewrite !forallb_forall. intros Hn R k Hk.
  apply R. apply in_seq in Hk. apply in_seq. lia.
Qed.

Lemma transits_prefixes w :
  all_ret w 0 (ncalls transit_signals) = true ->
  run0 (upto 4 transit_signals) w = run0 (upto 4 transit_signals) (heal w) /\
  run0 (upto 9 transit_signals) w = run0 (upto 9 transit_signals) (heal w) /\
  run0 transit_signals w = run0 transit_signals (heal w).
Proof.
  intros R.
  assert (R' : forall n, n <= ncalls transit_signals -> all_ret w 0 n = true)
    by (intros n Hn; apply (all_ret_le w n _ Hn R)).
  repeat split.
  - apply (run_in_healed _ w 17);
      [reflexivity | reflexivity | vm_compute; lia |].
    apply R'. vm_compute. lia.
  - apply (run_in_healed _ w 43);
      [reflexivity | reflexivity | vm_compute; lia |].
    apply R'. vm_compute. lia.
  - apply (run_in_healed _ w (ncalls transit_signals));
      [reflexivity | reflexivity | vm_compute; lia | exact R].
Qed.

(** C9. In a complete run of the notebook on transit signals, the light
    curve bound to [lc] by cell 11 is still the value of [lc] after cell 25
    built [masked_lc = lc[~planet_b_mask]], and at the end of the run; the
    masked light curve is a new value bound to another name; the later
    [lc.fold] of cell 29 and [lc.scatter] of cell 39 are calls on that same
    light curve; and no call of the run modifies an object in place.
    Selecting with a mask and with its negation partitions the cadences:
    together the two selections are a rearrangement of all the cadences, and
    each cadence is picked by exactly one of the two masks. *)
Theorem masking_leaves_the_light_curve_intact :
  forall (w : world) (cadence : Type) (rows : list cadence) (mask : list bool),
    all_ret w 0 (ncalls transit_signals) = true ->
    length mask = length rows ->
    (exists lc m not_m masked in_transit args,
       assoc "lc" (globals (snd (run0 (upto 4 transit_signals) w)))
         = Some lc /\
       assoc "lc" (globals (snd (run0 (upto 9 transit_signals) w)))
         = Some lc /\
       assoc "lc" (globals (snd (run0 transit_signals w))) = Some lc /\
       assoc "planet_b_mask" (globals (snd (run0 transit_signals w)))
         = Some m /\
       assoc "masked_lc" (globals (snd (run0 transit_signals w)))
         = Some masked /\
       nth_error (log (snd (run0 transit_signals w))) 36
         = Some (XInvert m, Ret not_m) /\
       nth_error (log (snd (run0 transit_signals w))) 37
         = Some (XGetItem lc not_m, Ret masked) /\
       nth_error (log (snd (run0 transit_signals w))) 40
         = Some (XGetItem lc m, Ret in_transit) /\
       nth_error (calls (snd (run0 transit_signals w))) 46
         = Some (XCallMethod lc "fold" args) /\
       nth_error (calls (snd (run0 transit_signals w))) 80
         = Some (XCallMethod lc "scatter" []) /\
       existsb modifies (calls (snd (run0 transit_signals w))) = false) /\
    (exists masked_rows transit_rows,
       getitem_mask cadence rows (invert mask) = Some masked_rows /\
       getitem_mask cadence rows mask = Some transit_rows /\
       Permutation (masked_rows ++ transit_rows) rows /\
       length masked_rows + length transit_rows = length rows /\
       forall i, i < length rows ->
         xorb (nth i (invert mask) false) (nth i mask false) = true).
Proof.
  intros w cadence rows mask R Hl. split.
  - destruct (transits_prefixes w R) as (-> & -> & ->).
    unfold heal. generalize (fun k => val (w k)). intros v.
    vm_compute. do 6 eexists. repeat split.
  - exists (select cadence rows (invert mask)), (select cadence rows mask).
    destruct (select_partition cadence rows mask Hl) as [P L].
    unfold getitem_mask, invert. rewrite length_map, Hl, Nat.eqb_refl.
    repeat split; auto.
    intros i Hi. apply invert_nth. lia.
Qed.

Lemma masking_leaves_the_light_curve_intact_witness :
  (exists lc m not_m masked in_transit args,
     assoc "lc" (globals (snd (run0 (upto 4 transit_signals) tags)))
       = Some lc /\
     assoc "lc" (globals (snd (run0 (upto 9 transit_signals) tags)))
       = Some lc /\
     assoc "lc" (globals (snd (run0 transit_signals tags))) = Some lc /\
     assoc "planet_b_mask" (globals (snd (run0 transit_signals tags)))
       = Some m /\
     assoc "masked_lc" (globals (snd (run0 transit_signals tags)))
       = Some masked /\
     nth_error (log (snd (run0 transit_signals tags))) 36
       = Some (XInvert m, Ret not_m) /\
     nth_error (log (snd (run0 transit_signals tags))) 37
       = Some (XGetItem lc not_m, Ret masked) /\
     nth_error (log (snd (run0 transit_signals tags))) 40
       = Some (XGetItem lc m, Ret in_transit) /\
     nth_error (calls (snd (run0 transit_signals tags))) 46
       = Some (XCallMethod lc "fold" args) /\
     nth_error (calls (snd (run0 transit_signals tags))) 80
       = Some (XCallMethod lc "scatter" []) /\
     existsb modifies (calls (snd (run0 transit_signals tags))) = false) /\
  (exists masked_rows transit_rows,
     getitem_mask nat [10; 20; 30] (invert [false; true; false])
       = Some masked_rows /\
     getitem_mask nat [10; 20; 30] [false; true; false] = Some transit_rows /\
     Permutation (masked_rows ++ transit_rows) [10; 20; 30] /\
     length masked_rows + length transit_rows = length [10; 20; 30] /\
     forall i, i < length [10; 20; 30] ->
       xorb (nth i (invert [false; true; false]) false)
            (nth i [false; true; false] false) = true).
Proof.
  apply (masking_leaves_the_light_curve_intact tags nat [10; 20; 30]
           [false; true; false]).
  - vm_compute. reflexivity.
  - reflexivity.
Defined.
(** * Further properties of the notebooks *)

(** ** X1: how a run ends *)

(** X1. A run of a notebook ends normally exactly when all the calls of the
    notebook return, but for displays, whose failures the display hook
    shows without ending the run.  A run that ends with an exception has a
    first failure that is no display, and ends with the exception of that
    call, or with the one that replaced it on the way out of a [with]
    block: what the exit of the file raised, or the test of the value it
    returned.  A run ends with a NameError only when the exit of a [with]
    block dropped the exception of its body: no cell reads a name that the
    cells before it have not bound. *)
Theorem run_ends_ok_iff_only_displays_fail :
  forall nb w, In nb notebooks ->
    (fst (run0 nb w) = Ok tt <-> quiet nb w (ncalls nb) = true) /\
    (forall e, fst (run0 nb w) = Raised e ->
       exists f e0, first_failure nb w f e0 /\
         (e = e0 \/
          (in_body (plan nb) f = true /\
           exit_verdict w (S f) = Replaced e))) /\
    (forall x, fst (run0 nb w) = NameError x ->
       exists f e0, first_failure nb w f e0 /\
         in_body (plan nb) f = true /\ exit_verdict w (S f) = Dropped).
Proof.
  intros nb w H.
  destruct (run_shape nb w H) as [[Q E]|(f & e0 & FF & Fa)].
  - rewrite E, (proj1 (mended_run nb w H)).
    repeat split; auto; intros; discriminate.
  - assert (N : quiet nb w (ncalls nb) <> true)
      by (intros Q; exact (quiet_no_failure nb w f e0 Q FF)).
    unfold fails_at in Fa.
    destruct (in_body (plan nb) f) eqn:Hb.
    + destruct Fa as [_ Fa].
      destruct (exit_verdict w (S f)) as [|e2|] eqn:Hv.
      * rewrite Fa. repeat split; try discriminate;
          try (intros A; now elim N).
        intros e E0. injection E0 as <-. exists f, e0. auto.
      * rewrite Fa. repeat split; try discriminate;
          try (intros A; now elim N).
        intros e E0. injection E0 as <-. exists f, e0. auto.
      * destruct Fa as [x Fa]. rewrite Fa.
        repeat split; try discriminate; try (intros A; now elim N).
        intros x0 _. exists f, e0. auto.
    + destruct Fa as [Fa _]. rewrite Fa.
      repeat split; try discriminate; try (intros A; now elim N).
      intros e E0. injection E0 as <-. exists f, e0. auto.
Qed.

Lemma run_ends_ok_iff_only_displays_fail_witness :
  (fst (run0 fits_images hdu_missing_and_dropped) = Ok tt <->
   quiet fits_images hdu_missing_and_dropped (ncalls fits_images) = true) /\
  (forall e, fst (run0 fits_images hdu_missing_and_dropped) = Raised e ->
     exists f e0, first_failure fits_images hdu_missing_and_dropped f e0 /\
       (e = e0 \/
        (in_body (plan fits_images) f = true /\
         exit_verdict hdu_missing_and_dropped (S f) = Replaced e))) /\
  (forall x, fst (run0 fits_images hdu_missing_and_dropped) = NameError x ->
     exists f e0, first_failure fits_images hdu_missing_and_dropped f e0 /\
       in_body (plan fits_images) f = true /\
       exit_verdict hdu_missing_and_dropped (S f) = Dropped).
Proof.
  apply (run_ends_ok_iff_only_displays_fail fits_images
           hdu_missing_and_dropped).
  unfold notebooks. simpl. auto.
Defined.

(** ** X3: a file that was closed is not used again *)

Lemma in_skipn_later (A : Type) (l : list A) j k x :
  j < k -> nth_error l k = Some x -> In x (skipn (S j) l).
Proof.
  intros Hjk Hk. apply nth_error_In with (n := k - S j).
  rewrite nth_error_skipn. replace (S j + (k - S j)) with k by lia. exact Hk.
Qed.

Lemma unused_after_spec L j m k c r :
  unused_after L j m = true -> j < k -> nth_error L k = Some (c, r) ->
  uses m c = false.
Proof.
  unfold unused_after. rewrite forallb_forall. intros F Hjk Hk.
  apply (in_skipn_later _ L j k (c, r) Hjk) in Hk. apply F in Hk. simpl in Hk.
  now apply negb_true_iff in Hk.
Qed.

Lemma handles_of_spec L m i j h :
  nth_error L i = Some (XEnter (VObj m), Ret (VObj h)) -> i < j ->
  In h (handles_of L m j).
Proof.
  intros Hi Hij. unfold handles_of. apply in_flat_map.
  exists (i, (XEnter (VObj m), Ret (VObj h))). split.
  - apply (nth_error_numbered _ L 0) in Hi. exact Hi.
  - rewrite Nat.eqb_refl. simpl.
    apply Nat.ltb_lt in Hij. rewrite Hij. simpl. auto.
Qed.

(** X3. In the complete run of a notebook, once a [with] block is left,
    no later call is given the manager of the block (the file that
    [fits.open] returned) or the handle that entering it returned (the
    value bound to [hdulist]): the cells read what they need from the file
    inside the block and afterwards use only what they read.  Stated on the
    run that names each object by the call that returned it. *)
Theorem closed_files_are_not_used_again :
  forall nb i j k m h b r c r1, In nb notebooks ->
    nth_error (flow nb) i = Some (XEnter (VObj m), Ret (VObj h)) ->
    nth_error (flow nb) j = Some (XExit (VObj m) b, r) ->
    i < j -> j < k ->
    nth_error (flow nb) k = Some (c, r1) ->
    uses m c = false /\ uses h c = false.
Proof.
  intros nb i j k m h b r c r1 H Hi Hj Hij Hjk Hk.
  assert (F : left_for_good (flow nb) = true)
    by (each_notebook H; vm_compute; reflexivity).
  unfold left_for_good in F. rewrite forallb_forall in F.
  apply (nth_error_numbered _ (flow nb) 0) in Hj. apply F in Hj.
  simpl in Hj. apply andb_prop in Hj. destruct Hj as [Fm Fh]. split.
  - exact (unused_after_spec _ _ _ _ _ _ Fm Hjk Hk).
  - rewrite forallb_forall in Fh.
    exact (unused_after_spec _ _ _ _ _ _
             (Fh h (handles_of_spec _ _ _ _ _ Hi Hij)) Hjk Hk).
Qed.

Lemma closed_files_are_not_used_again_witness :
  uses 22 (XGetItem (VObj 25) (VSlice (Some 1%Z) (Some 25%Z))) = false /\
  uses 23 (XGetItem (VObj 25) (VSlice (Some 1%Z) (Some 25%Z))) = false.
Proof.
  apply (closed_files_are_not_used_again fits_images 23 26 27 22 23 false
           (Ret (VObj 26)) (XGetItem (VObj 25) (VSlice (Some 1%Z) (Some 25%Z)))
           (Ret (VObj 27))).
  - unfold notebooks. simpl. auto.
  - reflexivity.
  - reflexivity.
  - lia.
  - lia.
  - reflexivity.
Defined.

(** ** X4: the parameters of a transit belong to one periodogram *)


Ltac find_in := solve [repeat (first [left; reflexivity | right])].

(** X4. In a complete run of a notebook, every call of
    [get_transit_mask] and of [get_transit_model] on a periodogram is given
    as period, transit time and duration the three values that this same
    periodogram returned as its [period_at_max_power],
    [transit_time_at_max_power] and [duration_at_max_power]; and every
    [fold] is given a period and an epoch that one periodogram returned.
    The names [period] and [bls] are bound again for the second planet, but
    the parameters of the two planets are never mixed. *)
Theorem transit_parameters_belong_to_one_periodogram :
  forall nb w o m args, In nb notebooks ->
    all_ret w 0 (ncalls nb) = true ->
    In (XCallMethod o m args) (calls (snd (run0 nb w))) ->
    (m = "get_transit_mask" \/ m = "get_transit_model" ->
     exists p t d,
       args = [VKw "period" p; VKw "transit_time" t; VKw "duration" d] /\
       bls_parameters (log (snd (run0 nb w))) o p t d) /\
    (m = "fold" ->
     exists bls p t d,
       (args = [p; t] \/ args = [VKw "period" p; VKw "epoch_time" t]) /\
       bls_parameters (log (snd (run0 nb w))) bls p t d).
Proof.
  intros nb w o m args H R Hc.
  destruct (complete_run nb w H R) as (E & _). rewrite E in *. clear E R.
  revert Hc. unfold heal. generalize (fun k => val (w k)). intros v Hc.
  unfold bls_parameters. split.
  - intros Hm.
    assert (Hf : In (XCallMethod o m args)
                   (filter (named ["get_transit_mask"; "get_transit_model"])
                      (calls (snd (run0 nb (oks v)))))).
    { apply filter_In. split; [exact Hc|].
      destruct Hm as [->| ->]; reflexivity. }
    clear Hc Hm. revert Hf.
    each_notebook H; vm_compute; intros Hf;
      repeat (destruct Hf as [Hf|Hf]; [|]); try contradiction;
      injection Hf as <- <- <-;
      do 3 eexists; (split; [reflexivity|]); repeat split; find_in.
  - intros ->.
    assert (Hf : In (XCallMethod o "fold" args)
                   (filter (named ["fold"])
                      (calls (snd (run0 nb (oks v)))))).
    { apply filter_In. split; [exact Hc | reflexivity]. }
    clear Hc. revert Hf.
    each_notebook H; vm_compute; intros Hf;
      repeat (destruct Hf as [Hf|Hf]; [|]); try contradiction;
      injection Hf as <- <-;
      do 4 eexists;
      (split; [first [right; reflexivity | left; reflexivity]|]);
      repeat split; find_in.
Qed.

Lemma transit_parameters_belong_to_one_periodogram_witness :
  ("get_transit_model" = "get_transit_mask" \/
   "get_transit_model" = "get_transit_model" ->
   exists p t d,
     [VKw "period" (VObj 61); VKw "transit_time" (VObj 62);
      VKw "duration" (VObj 63)]
     = [VKw "period" p; VKw "transit_time" t; VKw "duration" d] /\
     bls_parameters (log (snd (run0 transit_signals tags))) (VObj 58) p t d) /\
  ("get_transit_model" = "fold" ->
   exists bls p t d,
     ([VKw "period" (VObj 61); VKw "transit_time" (VObj 62);
       VKw "duration" (VObj 63)] = [p; t] \/
      [VKw "period" (VObj 61); VKw "transit_time" (VObj 62);
       VKw "duration" (VObj 63)]
      = [VKw "period" p; VKw "epoch_time" t]) /\
     bls_parameters (log (snd (run0 transit_signals tags))) bls p t d).
Proof.
  apply (transit_parameters_belong_to_one_periodogram transit_signals tags
           (VObj 58) "get_transit_model"
           [VKw "period" (VObj 61); VKw "transit_time" (VObj 62);
            VKw "duration" (VObj 63)]).
  - unfold notebooks. simpl. auto.
  - vm_compute. reflexivity.
  - vm_compute. intuition.
Defined.

(** ** X5: an aperture mask is made for the pixel file it is used on *)

Lemma same_object_eq a b : same_object a b = true -> a = b.
Proof.
  destruct a, b; simpl; try discriminate. intros E.
  apply Nat.eqb_eq in E. now subst.
Qed.

(** X5. In the complete run of a notebook, every mask object given as
    [aperture_mask] to a method of a target pixel file was made for that
    same pixel file: it is the value of its [create_threshold_mask], its
    [pipeline_mask], or an array that [np.zeros] built with the shape of
    a frame of that pixel file ([tpf[0].shape[1:]]).  So the mask built for
    the crowded field is used on the crowded field and the mask built for
    the cutout on the cutout.  Stated on the run that names each object by
    the call that returned it. *)
Theorem aperture_mask_is_made_for_its_pixel_file :
  forall nb o m args j, In nb notebooks ->
    In (XCallMethod o m args) (map fst (flow nb)) ->
    kw_arg "aperture_mask" args = Some (VObj j) ->
    mask_base (flow nb) (VObj j) = Some o.
Proof.
  intros nb o m args j H Hc Ha.
  assert (F : forallb (mask_fits (flow nb)) (map fst (flow nb)) = true)
    by (each_notebook H; vm_compute; reflexivity).
  rewrite forallb_forall in F. apply F in Hc. unfold mask_fits in Hc.
  rewrite Ha in Hc.
  destruct (mask_base (flow nb) (VObj j)) as [b|]; [|discriminate].
  apply same_object_eq in Hc. now subst.
Qed.

Lemma aperture_mask_is_made_for_its_pixel_file_witness :
  mask_base (flow own_light_curves) (VObj 114) = Some (VObj 104).
Proof.
  apply (aperture_mask_is_made_for_its_pixel_file own_light_curves (VObj 104)
           "to_lightcurve" [VKw "aperture_mask" (VObj 114)] 114).
  - unfold notebooks. simpl. auto.
  - vm_compute. intuition.
  - reflexivity.
Defined.

(** ** X6: a hand-built mask is filled before it is used *)

Lemma in_firstn_earlier (A : Type) (l : list A) i k x :
  k <= i -> nth_error l k = Some x -> In x (firstn (S i) l).
Proof.
  intros Hki Hk. apply nth_error_In with (n := k).
  rewrite nth_error_firstn.
  destruct (Nat.ltb_spec k (S i)); [exact Hk | lia].
Qed.

(** X6. In the complete run of a notebook, every item assignment to an
    array comes before every call that is given this array as its aperture
    mask: the hand-built masks are filled in first and plotted or used for
    photometry afterwards, never changed after a use.  Stated on the run
    that names each object by the call that returned it. *)
Theorem masks_are_filled_before_use :
  forall nb i k j idx x r c r1, In nb notebooks ->
    nth_error (flow nb) i = Some (XSetItem (VObj j) idx x, r) ->
    nth_error (flow nb) k = Some (c, r1) ->
    aperture_arg c = Some (VObj j) ->
    i < k.
Proof.
  intros nb i k j idx x r c r1 H Hi Hk Ha.
  assert (F : filled_before_use (flow nb) = true)
    by (each_notebook H; vm_compute; reflexivity).
  unfold filled_before_use in F. rewrite forallb_forall in F.
  apply (nth_error_numbered _ (flow nb) 0) in Hi. apply F in Hi.
  simpl in Hi. unfold not_yet_a_mask in Hi. rewrite forallb_forall in Hi.
  destruct (Nat.lt_ge_cases i k) as [Hlt|Hge]; [exact Hlt|].
  apply (in_firstn_earlier _ (flow nb) i k (c, r1) Hge) in Hk.
  apply Hi in Hk. simpl in Hk. rewrite Ha in Hk. simpl in Hk.
  rewrite Nat.eqb_refl in Hk. discriminate.
Qed.

Lemma masks_are_filled_before_use_witness : 116 < 119.
Proof.
  apply (masks_are_filled_before_use own_light_curves 116 119 114
           (VTuple [VInt 1; VInt 2]) (VBool true) (Ret (VObj 116))
           (XCallMethod (VObj 104) "plot" [VKw "aperture_mask" (VObj 114)])
           (Ret (VObj 119))).
  - unfold notebooks. simpl. auto.
  - reflexivity.
  - reflexivity.
  - reflexivity.
Defined.

(** ** X7: what is downloaded was found by a query *)

Lemma found_by_queryb_sound L : forall fuel a,
  found_by_queryb fuel L a = true -> found_by_query L a.
Proof.
  induction fuel as [|n IH]; intros a Hf; simpl in Hf; [discriminate|].
  destruct a as [| | | | | | | | |j]; simpl in Hf; try discriminate.
  destruct (nth_error L j) as [[c r]|] eqn:Ej; simpl in Hf; [|discriminate].
  apply orb_prop in Hf. destruct Hf as [Hq|Hf].
  - exact (fq_query L j c r Ej Hq).
  - destruct c as [| | | |f args|o m args|o i| | | | | | |]; try discriminate.
    + destruct args as [|x args]; [discriminate|].
      apply andb_prop in Hf. destruct Hf as [Hm Hx].
      apply String.eqb_eq in Hm. subst m.
      exact (fq_filter L j o x args r Ej (IH _ Hx)).
    + exact (fq_item L j o i r Ej (IH _ Hf)).
Qed.

(** X7. In the complete run of a notebook, whatever is downloaded was
    found by a query of the archive earlier in the same run: lightkurve's
    [download] and [download_all] are called on a search result or on an
    item of one, and astroquery's [download_products] is given a product
    list that [get_product_list] returned, filtered with
    [filter_products].  No notebook downloads from a hard-coded address.
    Stated on the run that names each object by the call that returned
    it. *)
Theorem downloads_come_from_queries :
  forall nb c, In nb notebooks ->
    In c (map fst (flow nb)) -> is_download c = true ->
    found_by_query (flow nb) (download_subject c).
Proof.
  intros nb c H Hc Hd.
  assert (F : forallb (fun c => implb (is_download c)
                         (found_by_queryb (length (flow nb)) (flow nb)
                            (download_subject c)))
                (map fst (flow nb)) = true)
    by (each_notebook H; vm_compute; reflexivity).
  rewrite forallb_forall in F. apply F in Hc. rewrite Hd in Hc. simpl in Hc.
  exact (found_by_queryb_sound _ _ _ Hc).
Qed.

Lemma downloads_come_from_queries_witness :
  found_by_query (flow fits_images)
    (download_subject
       (XCallMethod (VObj 6) "download_products"
          [VObj 13; VKw "mrp_only" (VBool false); VKw "cache" (VBool false)])).
Proof.
  apply (downloads_come_from_queries fits_images).
  - unfold notebooks. simpl. auto.
  - vm_compute. intuition.
  - reflexivity.
Defined.

(** ** X8: the second search runs on what the first search left *)

(** X8. In every complete run of the notebook on transit signals the two
    searches are chained: the first periodogram is computed from [lc]; the
    transit mask of the first planet is asked of that periodogram; the
    second periodogram is computed from [lc] indexed by the inverse of that
    mask, on the second grid of periods; each transit model is asked of the
    periodogram of its own planet; and the last cell draws both models on
    the axes that [lc.scatter()] returned.  At the end [bls] names the
    second periodogram, while [planet_b_model] still names the model of
    the first. *)
Theorem second_search_runs_on_the_masked_light_curve :
  forall w, all_ret w 0 (ncalls transit_signals) = true ->
    exists lc grid1 bls1 args_b mask inv masked grid2 bls2 args_c
           model_b model_c ax,
      let L := log (snd (run0 transit_signals w)) in
      let G := globals (snd (run0 transit_signals w)) in
      nth_error L 21
        = Some (XCallMethod lc "to_periodogram"
                  [VKw "method" (VStr "bls"); VKw "period" grid1;
                   VKw "frequency_factor" (VInt 100)], Ret bls1) /\
      nth_error L 35
        = Some (XCallMethod bls1 "get_transit_mask" args_b, Ret mask) /\
      nth_error L 36 = Some (XInvert mask, Ret inv) /\
      nth_error L 37 = Some (XGetItem lc inv, Ret masked) /\
      nth_error L 44
        = Some (XCallMethod bls1 "get_transit_model" args_b, Ret model_b) /\
      nth_error L 58
        = Some (XCallMethod masked "to_periodogram"
                  [VStr "bls"; VKw "period" grid2], Ret bls2) /\
      nth_error L 78
        = Some (XCallMethod bls2 "get_transit_model" args_c, Ret model_c) /\
      nth_error L 80 = Some (XCallMethod lc "scatter" [], Ret ax) /\
      nth_error (calls (snd (run0 transit_signals w))) 82
        = Some (XCallMethod model_b "plot"
                  [VKw "ax" ax; VKw "c" (VStr "dodgerblue");
                   VKw "label" (VStr "Planet b Transit Model")]) /\
      nth_error (calls (snd (run0 transit_signals w))) 84
        = Some (XCallMethod model_c "plot"
                  [VKw "ax" ax; VKw "c" (VStr "r");
                   VKw "label" (VStr "Planet c Transit Model")]) /\
      assoc "lc" G = Some lc /\
      assoc "masked_lc" G = Some masked /\
      assoc "period" G = Some grid2 /\
      assoc "bls" G = Some bls2 /\
      assoc "planet_b_model" G = Some model_b /\
      assoc "planet_c_model" G = Some model_c.
Proof.
  intros w R.
  destruct (complete_run transit_signals w) as (E & _);
    [unfold notebooks; simpl; auto | exact R |].
  rewrite E. clear E R. unfold heal. generalize (fun k => val (w k)).
  intros v. vm_compute. do 13 eexists. repeat split.
Qed.

Lemma second_search_runs_on_the_masked_light_curve_witness :
  exists lc grid1 bls1 args_b mask inv masked grid2 bls2 args_c
         model_b model_c ax,
    let L := log (snd (run0 transit_signals tags)) in
    let G := globals (snd (run0 transit_signals tags)) in
    nth_error L 21
      = Some (XCallMethod lc "to_periodogram"
                [VKw "method" (VStr "bls"); VKw "period" grid1;
                 VKw "frequency_factor" (VInt 100)], Ret bls1) /\
    nth_error L 35
      = Some (XCallMethod bls1 "get_transit_mask" args_b, Ret mask) /\
    nth_error L 36 = Some (XInvert mask, Ret inv) /\
    nth_error L 37 = Some (XGetItem lc inv, Ret masked) /\
    nth_error L 44
      = Some (XCallMethod bls1 "get_transit_model" args_b, Ret model_b) /\
    nth_error L 58
      = Some (XCallMethod masked "to_periodogram"
                [VStr "bls"; VKw "period" grid2], Ret bls2) /\
    nth_error L 78
      = Some (XCallMethod bls2 "get_transit_model" args_c, Ret model_c) /\
    nth_error L 80 = Some (XCallMethod lc "scatter" [], Ret ax) /\
    nth_error (calls (snd (run0 transit_signals tags))) 82
      = Some (XCallMethod model_b "plot"
                [VKw "ax" ax; VKw "c" (VStr "dodgerblue");
                 VKw "label" (VStr "Planet b Transit Model")]) /\
    nth_error (calls (snd (run0 transit_signals tags))) 84
      = Some (XCallMethod model_c "plot"
                [VKw "ax" ax; VKw "c" (VStr "r");
                 VKw "label" (VStr "Planet c Transit Model")]) /\
    assoc "lc" G = Some lc /\
    assoc "masked_lc" G = Some masked /\
    assoc "period" G = Some grid2 /\
    assoc "bls" G = Some bls2 /\
    assoc "planet_b_model" G = Some model_b /\
    assoc "planet_c_model" G = Some model_c.
Proof.
  apply (second_search_runs_on_the_masked_light_curve tags).
  vm_compute. reflexivity.
Defined.

(** ** X9: the file that is opened is the file that was downloaded *)

Lemma numbered_nth_error (A : Type) (l : list A) : forall a n x,
  In (n, x) (combine (seq a (length l)) l) ->
  exists j, n = a + j /\ nth_error l j = Some x.
Proof.
  induction l as [|y l IH]; intros a n x Hin; simpl in Hin; [contradiction|].
  destruct Hin as [E|Hin].
  - injection E as <- <-. exists 0. split; [lia | reflexivity].
  - destruct (IH _ _ _ Hin) as (j & -> & Hj). exists (S j).
    split; [lia | exact Hj].
Qed.

(** X9. In the complete run of a notebook, every file given by name to
    [fits.info] or [fits.open] was downloaded earlier in the same run: an
    earlier [download_products] was given the products that an earlier
    [filter_products] selected, and the [extension] this filter asked for
    is the end of the name of the file.  The name written out in the cell
    that sets [filename] and the product selected in the cell that filters
    agree.  Stated on the run that names each object by the call that
    returned it. *)
Theorem opened_files_were_downloaded :
  forall nb k lib m path r, In nb notebooks ->
    nth_error (flow nb) k = Some (XCallMethod lib m [VStr path], r) ->
    m = "open" \/ m = "info" ->
    exists i d lib1 lib2 args1 args2 e r1 r2,
      i < d /\ d < k /\
      nth_error (flow nb) i
        = Some (XCallMethod lib1 "filter_products" args1, r1) /\
      kw_arg "extension" args1 = Some (VStr e) /\
      ends_with path e = true /\
      nth_error (flow nb) d
        = Some (XCallMethod lib2 "download_products" (VObj i :: args2), r2).
Proof.
  intros nb k lib m path r H Hk Hm.
  assert (F : opens_what_was_downloaded (flow nb) = true)
    by (each_notebook H; vm_compute; reflexivity).
  unfold opens_what_was_downloaded in F. rewrite forallb_forall in F.
  apply (nth_error_numbered _ (flow nb) 0) in Hk. apply F in Hk.
  cbv beta iota in Hk.
  assert (Hn : existsb (String.eqb m) ["open"; "info"] = true)
    by (destruct Hm as [->| ->]; reflexivity).
  rewrite Hn in Hk. simpl in Hk. clear Hn F.
  unfold downloaded_before in Hk. apply existsb_exists in Hk.
  destruct Hk as ([d [c r2]] & Hin & Hq).
  apply numbered_nth_error in Hin. destruct Hin as (j & -> & Hd).
  simpl in Hd.
  destruct c as [| | | |f args|lib2 m2 args|o i0| | | | | | |]; try discriminate.
  destruct args as [|[| | | | | | | | |i] args2]; try discriminate.
  apply andb_prop in Hq. destruct Hq as [Hq Hf].
  apply andb_prop in Hq. destruct Hq as [Hq Hid].
  apply andb_prop in Hq. destruct Hq as [Hm2 Hdk].
  apply String.eqb_eq in Hm2. subst m2.
  apply Nat.ltb_lt in Hdk. apply Nat.ltb_lt in Hid.
  unfold filters_for in Hf.
  destruct (nth_error (flow nb) i) as [[c1 r1]|] eqn:Ei; [|discriminate].
  destruct c1 as [| | | |f1 a1|lib1 m1 args1|o1 i1| | | | | | |];
    try discriminate.
  apply andb_prop in Hf. destruct Hf as [Hm1 He].
  apply String.eqb_eq in Hm1. subst m1.
  destruct (kw_arg "extension" args1) as [[| | | |e| | | | |]|] eqn:Ek;
    try discriminate.
  exists i, j, lib1, lib2, args1, args2, e, r1, r2.
  repeat split; auto.
Qed.

Lemma opened_files_were_downloaded_witness :
  exists i d lib1 lib2 args1 args2 e r1 r2,
    i < d /\ d < 108 /\
    nth_error (flow fits_images) i
      = Some (XCallMethod lib1 "filter_products" args1, r1) /\
    kw_arg "extension" args1 = Some (VStr e) /\
    ends_with
      "./mastDownload/Kepler/kplr008957091_lc_Q000000000011111111/kplr008957091-2012277125453_lpd-targ.fits.gz"
      e = true /\
    nth_error (flow fits_images) d
      = Some (XCallMethod lib2 "download_products" (VObj i :: args2), r2).
Proof.
  apply (opened_files_were_downloaded fits_images 108 (VObj 2) "open"
           "./mastDownload/Kepler/kplr008957091_lc_Q000000000011111111/kplr008957091-2012277125453_lpd-targ.fits.gz"
           (Ret (VObj 108))).
  - unfold notebooks. simpl. auto.
  - reflexivity.
  - left. reflexivity.
Defined.

(** ** X10: every plot that is given axes draws on axes of the run *)

(** X10. In the complete run of a notebook, the axes given as [ax] to a
    call are either what an earlier drawing call ([plot], [scatter])
    returned, so that the new curve is laid over that plot, or an item of
    the array of axes that [plt.subplots] returned, so that the curve goes
    into a panel of that figure.  Stated on the run that names each object
    by the call that returned it. *)
Theorem axes_are_made_by_the_run :
  forall nb c a, In nb notebooks ->
    In c (map fst (flow nb)) -> kw_arg "ax" (args_of c) = Some a ->
    (exists c0, call_at (flow nb) a = Some c0 /\ is_plot c0 = true) \/
    (exists u idx s lib m args,
       call_at (flow nb) a = Some (XGetItem u idx) /\
       call_at (flow nb) u = Some (XUnpack s 2 1) /\
       call_at (flow nb) s = Some (XCallMethod lib m args) /\
       m = "subplots").
Proof.
  intros nb c a H Hc Ha.
  assert (F : forallb (axes_exist (flow nb)) (map fst (flow nb)) = true)
    by (each_notebook H; vm_compute; reflexivity).
  rewrite forallb_forall in F. apply F in Hc. unfold axes_exist in Hc.
  rewrite Ha in Hc. apply orb_prop in Hc. destruct Hc as [Hd|Hs].
  - left. unfold drawn_axes in Hd.
    destruct (call_at (flow nb) a) as [c0|]; [|discriminate]. eauto.
  - right. unfold subplot_item in Hs.
    destruct (call_at (flow nb) a) as [[| | | | | |u idx| | | | | | |]|] eqn:Ea;
      try discriminate.
    destruct (call_at (flow nb) u) as [[| | | | | | | | |s n i| | | |]|] eqn:Eu;
      try discriminate.
    destruct n as [|[|[|n]]]; try discriminate.
    destruct i as [|[|i]]; try discriminate.
    destruct (call_at (flow nb) s) as [[| | | | |lib m args| | | | | | | |]|]
      eqn:Es; try discriminate.
    apply String.eqb_eq in Hs. exists u, idx, s, lib, m, args.
    repeat split; auto.
Qed.

Lemma axes_are_made_by_the_run_witness :
  (exists c0, call_at (flow tpf_plots) (VObj 20) = Some c0 /\
              is_plot c0 = true) \/
  (exists u idx s lib m args,
     call_at (flow tpf_plots) (VObj 20) = Some (XGetItem u idx) /\
     call_at (flow tpf_plots) u = Some (XUnpack s 2 1) /\
     call_at (flow tpf_plots) s = Some (XCallMethod lib m args) /\
     m = "subplots").
Proof.
  apply (axes_are_made_by_the_run tpf_plots
           (XCallMethod (VObj 8) "plot"
              [VKw "ax" (VObj 20); VKw "column" (VStr "FLUX")])).
  - unfold notebooks. simpl. auto.
  - vm_compute. intuition.
  - reflexivity.
Defined.
